(** * Speech-to-calendar backend: the extraction-and-construction pipeline

    A shallow embedding of [main.py]: the colour resolver
    ([get_nearest_color_id]), the event builder ([add_event]), the
    extraction step ([call_gpt]) and the request handler
    ([process_audio]), together with the properties the specification
    states about them.

    Conventions.
    - Python [str] values are [string]s, one [ascii] per code point
      (code points below 256).
    - Python [int] is [Z]; Python [float] is IEEE binary64, modelled
      bit-exactly by [spec_float] with [prec = 53] and [emax = 1024].
    - A raised exception is the [Raise] branch of [outcome]; the calls a
      request makes to its collaborators are recorded, in order, in a
      trace. *)

From Stdlib Require Import ZArith List Bool Lia String Ascii.
From Stdlib Require Import Floats.SpecFloat.
From Stdlib Require Import Reals.
Import ListNotations.

Open Scope string_scope.
Open Scope Z_scope.
Set Warnings "-register-all".

(* ================================================================= *)
(** ** Python string primitives *)

Module PyStr.

Definition code (c : ascii) : Z := Z.of_N (N_of_ascii c).

(** [str.lstrip(chars)] for a one-character [chars]. *)
Fixpoint lstrip (c : ascii) (s : string) : string :=
  match s with
  | String a s' => if Ascii.eqb a c then lstrip c s' else s
  | EmptyString => s
  end.

(** [s[i:i+n]] for non-negative [i]: slices never fail, they truncate. *)
Definition slice (i n : nat) (s : string) : string := substring i n s.

(** The characters [int()] skips around a literal: the ASCII white
    space of C ([\t] to [\r], and the space) and, among the code
    points from 128 to 255, the two Unicode spaces (next line and
    no-break space), which [int()] first turns into spaces. The
    separators 28 to 31 are not skipped. *)
Definition isspace (c : ascii) : bool :=
  let n := code c in
  ((9 <=? n) && (n <=? 13)) || (n =? 32) || (n =? 133) || (n =? 160).

Fixpoint lstrip_space (s : string) : string :=
  match s with
  | String a s' => if isspace a then lstrip_space s' else s
  | EmptyString => s
  end.

Fixpoint rstrip_space (s : string) : string :=
  match s with
  | String a s' =>
      match rstrip_space s' with
      | EmptyString => if isspace a then EmptyString else String a EmptyString
      | r => String a r
      end
  | EmptyString => EmptyString
  end.

Definition strip (s : string) : string := rstrip_space (lstrip_space s).

(** [s.split(sep)] for a one-character separator. *)
Fixpoint split (sep : ascii) (s : string) : list string :=
  match s with
  | EmptyString => [EmptyString]
  | String a s' =>
      if Ascii.eqb a sep then EmptyString :: split sep s'
      else match split sep s' with
           | h :: t => String a h :: t
           | [] => [String a EmptyString]
           end
  end.

(** [sep.join(l)]. *)
Definition join (sep : string) (l : list string) : string := concat sep l.

(** [l[1:-1]] on a list. *)
Definition slice_1_m1 {A} (l : list A) : list A := removelast (tl l).

Definition startswith (s p : string) : bool := prefix p s.

Definition hex_digit (c : ascii) : option Z :=
  let n := code c in
  if (48 <=? n) && (n <=? 57) then Some (n - 48)
  else if (97 <=? n) && (n <=? 102) then Some (n - 87)
  else if (65 <=? n) && (n <=? 70) then Some (n - 55)
  else None.

(** The digits of an [int(_, 16)] literal: hexadecimal digits, single
    underscores allowed between digits only. [last_us] records that
    the previous character was an underscore (or that no digit may be
    preceded by one yet), [seen] that a digit was read. *)
Fixpoint hex_body (s : string) (acc : Z) (last_us seen : bool) : option Z :=
  match s with
  | EmptyString => if seen && negb last_us then Some acc else None
  | String c s' =>
      if Ascii.eqb c "_"%char then
        if last_us then None else hex_body s' acc true seen
      else match hex_digit c with
           | Some d => hex_body s' (acc * 16 + d) false true
           | None => None
           end
  end.

Definition has_0x (s : string) : option string :=
  match s with
  | String a (String b r) =>
      if Ascii.eqb a "0" && (Ascii.eqb b "x" || Ascii.eqb b "X")
      then Some r else None
  | _ => None
  end.

Definition hex_unsigned (s : string) : option Z :=
  match has_0x s with
  | Some r => match hex_body r 0 false false with
              | Some v => Some v
              | None => hex_body s 0 true false
              end
  | None => hex_body s 0 true false
  end.

(** [int(s, 16)]; [None] stands for [ValueError]. *)
Definition int16 (s : string) : option Z :=
  match strip s with
  | String a r =>
      if Ascii.eqb a "+" then hex_unsigned r
      else if Ascii.eqb a "-" then option_map Z.opp (hex_unsigned r)
      else hex_unsigned (String a r)
  | EmptyString => None
  end.

End PyStr.

(* ================================================================= *)
(** ** IEEE binary64, as used by [math.sqrt] and [<] on floats *)

Module Float64.

Definition prec : Z := 53.
Definition emax : Z := 1024.

(** Conversion of a Python [int] to [float] (exact below [2^53]). *)
Definition of_int (n : Z) : spec_float := binary_normalize prec emax n 0 false.

(** [float("inf")]. *)
Definition inf : spec_float := S754_infinity false.

(** [math.sqrt] applied to an [int]. *)
Definition sqrt_int (n : Z) : spec_float := SFsqrt prec emax (of_int n).

Definition ltb (x y : spec_float) : bool := SFltb x y.

(** A total order key for the non-negative finite floats met here. *)
Definition rank (f : spec_float) : Z :=
  match f with
  | S754_zero _ => 0
  | S754_finite false m e => (e + 2000) * 9007199254740992 + Zpos m
  | _ => -1
  end.

Definition good (f : spec_float) : bool :=
  match f with
  | S754_zero _ => true
  | S754_finite false m e => (Zpos m <? 9007199254740992) && (-2000 <? e)
  | _ => false
  end.

(** [mono_from fuel n prev]: the square roots of [n], [n+1], ...,
    [n+fuel-1] are good and their ranks increase strictly, starting
    above [prev]. *)
Fixpoint mono_from (fuel : nat) (n prev : Z) : bool :=
  match fuel with
  | O => true
  | S k =>
      let f := sqrt_int n in
      good f && (prev <? rank f) && mono_from k (n + 1) (rank f)
  end.

(** Largest squared distance between two colours with byte channels. *)
Definition max_sq : Z := 3 * 255 * 255.

End Float64.

(* ================================================================= *)
(** ** Colour resolver *)

Definition rgb : Type := (Z * Z * Z)%type.

Definition COLOR_HEX_MAP : list (string * string) :=
  [ ("1", "#a4bdfc"); ("2", "#7ae7bf"); ("3", "#dbadff"); ("4", "#ff887c");
    ("5", "#fbd75b"); ("6", "#ffb878"); ("7", "#46d6db"); ("8", "#e1e1e1");
    ("9", "#5484ed"); ("10", "#51b749"); ("11", "#dc2127") ].

(** [hex_to_rgb]; [None] stands for the [ValueError] of [int(_, 16)]. *)
Definition hex_to_rgb (hex_color : string) : option rgb :=
  let hex_color := PyStr.lstrip "#"%char hex_color in
  match PyStr.int16 (PyStr.slice 0 2 hex_color) with
  | None => None
  | Some r =>
      match PyStr.int16 (PyStr.slice 2 2 hex_color) with
      | None => None
      | Some g =>
          match PyStr.int16 (PyStr.slice 4 2 hex_color) with
          | None => None
          | Some b => Some (r, g, b)
          end
      end
  end.

(** The integer under the square root. *)
Definition dist_sq (p q : rgb) : Z :=
  let '(r1, g1, b1) := p in
  let '(r2, g2, b2) := q in
  (r1 - r2) ^ 2 + (g1 - g2) ^ 2 + (b1 - b2) ^ 2.

(** One iteration of the loop over [COLOR_HEX_MAP.items()]; the state is
    [(min_dist, best_id)]. *)
Definition nearest_step (target_rgb : rgb) (st : spec_float * string)
    (entry : string * string) : option (spec_float * string) :=
  let '(cid, hex_val) := entry in
  match hex_to_rgb hex_val with
  | None => None
  | Some p =>
      let dist := Float64.sqrt_int (dist_sq target_rgb p) in
      if Float64.ltb dist (fst st) then Some (dist, cid) else Some st
  end.

Fixpoint nearest_loop (target_rgb : rgb) (items : list (string * string))
    (st : spec_float * string) : option (spec_float * string) :=
  match items with
  | [] => Some st
  | entry :: rest =>
      match nearest_step target_rgb st entry with
      | None => None
      | Some st' => nearest_loop target_rgb rest st'
      end
  end.

Definition get_nearest_color_id (hex_input : string) : option string :=
  match hex_to_rgb hex_input with
  | None => None
  | Some target_rgb =>
      option_map snd (nearest_loop target_rgb COLOR_HEX_MAP (Float64.inf, "1"))
  end.

(** The palette with its canonical colours parsed. *)
Definition palette_rgb : list (string * rgb) :=
  flat_map (fun e => match hex_to_rgb (snd e) with
                     | Some p => [(fst e, p)]
                     | None => []
                     end) COLOR_HEX_MAP.

(** Euclidean distance in RGB space, over the reals. *)
Definition euclid (p q : rgb) : R := R_sqrt.sqrt (IZR (dist_sq p q)).

(** Six hexadecimal digits. *)
Definition is_hex6 (s : string) : bool :=
  (Nat.eqb (String.length s) 6)
  && forallb (fun c => match PyStr.hex_digit c with Some _ => true | None => false end)
       (list_ascii_of_string s).

Definition byte_rgb (p : rgb) : Prop :=
  let '(r, g, b) := p in 0 <= r <= 255 /\ 0 <= g <= 255 /\ 0 <= b <= 255.


(** *** The search loop in integers (the view used in the proofs) *)

(** The loop state in integers: the squared distance of the best entry
    so far, [None] before the first entry. *)
Definition sq_step (t : rgb) (st : option Z * string) (e : string * rgb)
    : option Z * string :=
  let d := dist_sq t (snd e) in
  match fst st with
  | None => (Some d, fst e)
  | Some m => if d <? m then (Some d, fst e) else st
  end.

Definition as_float (m : option Z) : spec_float :=
  match m with
  | None => Float64.inf
  | Some d => Float64.sqrt_int d
  end.

Definition sq_ok (m : option Z) : Prop :=
  match m with
  | None => True
  | Some d => 0 <= d <= Float64.max_sq
  end.

(** What the integer loop has found after the entries [seen]. *)
Definition best_of (t : rgb) (seen : list (string * rgb)) (st : option Z * string)
    : Prop :=
  match fst st with
  | None => seen = [] /\ snd st = "1"
  | Some m =>
      exists pre p post,
        seen = (pre ++ (snd st, p) :: post)%list /\ m = dist_sq t p /\
        Forall (fun e => dist_sq t p < dist_sq t (snd e)) pre /\
        Forall (fun e => dist_sq t p <= dist_sq t (snd e)) post
  end.

(* ================================================================= *)
(** ** Values decoded from JSON *)

Inductive json : Type :=
| JNull
| JBool (b : bool)
| JInt (n : Z)
| JFloat (f : spec_float)
| JStr (s : string)
| JArr (l : list json)
| JObj (d : list (string * json)).

(** Python truth value of a decoded JSON value. *)
Definition truthy (v : json) : bool :=
  match v with
  | JNull => false
  | JBool b => b
  | JInt n => negb (n =? 0)
  | JFloat (S754_zero _) => false
  | JFloat _ => true
  | JStr s => negb (String.eqb s EmptyString)
  | JArr l => match l with [] => false | _ => true end
  | JObj d => match d with [] => false | _ => true end
  end.

(** [a or b]. *)
Definition py_or (a b : json) : json := if truthy a then a else b.

(** A [dict] keeps one binding per key, in insertion order. *)
Fixpoint dict_get (d : list (string * json)) (k : string) : option json :=
  match d with
  | [] => None
  | (k', v) :: d' => if String.eqb k' k then Some v else dict_get d' k
  end.

(** [d[k] = v]. *)
Fixpoint dict_set (d : list (string * json)) (k : string) (v : json)
    : list (string * json) :=
  match d with
  | [] => [(k, v)]
  | (k', v') :: d' =>
      if String.eqb k' k then (k', v) :: d' else (k', v') :: dict_set d' k v
  end.

(* ================================================================= *)
(** ** Exceptions, outcomes and the trace of collaborator calls *)

Inductive exn : Type :=
| HTTPException (status_code : Z) (detail : string)
| ValueError
| TypeError
| AttributeError
| JSONDecodeError
| UnknownValueError
| RequestError
| HTTPError (status_code : Z)
| CollaboratorError (who : string).

Inductive outcome (A : Type) : Type :=
| Ok (a : A)
| Raise (e : exn).
Arguments Ok {A} a.
Arguments Raise {A} e.

(** [v.get(k)]: only a [dict] has the method. *)
Definition py_get (v : json) (k : string) : outcome json :=
  match v with
  | JObj d => Ok (match dict_get d k with Some x => x | None => JNull end)
  | _ => Raise AttributeError
  end.

(** ** Civil date and time *)

Record datetime : Type := mk_datetime {
  year : Z; month : Z; day : Z;
  hour : Z; minute : Z; second : Z; microsecond : Z;
  tzinfo : option Z  (** [utcoffset()] in seconds, [None] when naive *)
}.

Module Fmt.

Definition digit_char (d : Z) : ascii := ascii_of_N (Z.to_N (48 + d)).

(** [n] in decimal on exactly [width] digits (["%0<width>d"] for
    [0 <= n < 10^width]). *)
Fixpoint zfill (width : nat) (n : Z) : string :=
  match width with
  | O => EmptyString
  | S k => zfill k (n / 10) ++ String (digit_char (n mod 10)) EmptyString
  end.

Definition date_part (d : datetime) : string :=
  zfill 4 (year d) ++ "-" ++ zfill 2 (month d) ++ "-" ++ zfill 2 (day d).

Definition time_part (d : datetime) : string :=
  zfill 2 (hour d) ++ ":" ++ zfill 2 (minute d) ++ ":" ++ zfill 2 (second d)
  ++ (if microsecond d =? 0 then EmptyString else "." ++ zfill 6 (microsecond d)).

(** The timezone designator [+HH:MM[:SS]]. *)
Definition offset_part (off : Z) : string :=
  let a := Z.abs off in
  (if off <? 0 then "-" else "+")
  ++ zfill 2 (a / 3600) ++ ":" ++ zfill 2 ((a mod 3600) / 60)
  ++ (if a mod 60 =? 0 then EmptyString else ":" ++ zfill 2 (a mod 60)).

(** [strftime("%Y-%m-%d")]. *)
Definition strftime_Ymd (d : datetime) : string := date_part d.

(** [datetime.isoformat()]. *)
Definition isoformat (d : datetime) : string :=
  date_part d ++ "T" ++ time_part d
  ++ match tzinfo d with
     | None => EmptyString
     | Some off => offset_part off
     end.

End Fmt.

(** [a <= b] on wall-clock fields. *)
Definition wall_key (d : datetime) : Z :=
  (((((year d * 13 + month d) * 32 + day d) * 24 + hour d) * 60 + minute d) * 60
   + second d) * 1000000 + microsecond d.

Definition wall_leb (a b : datetime) : bool := wall_key a <=? wall_key b.

(* ================================================================= *)
(** ** Effects *)

Record calendar_event : Type := mk_event {
  ev_summary : json;
  ev_start_dateTime : string;
  ev_start_timeZone : string;
  ev_end_dateTime : string;
  ev_end_timeZone : string;
  ev_colorId : string
}.

(** What a request does to the outside, in order. [EvCreateEvent] carries
    the argument of the [Bearer] authorization header and the payload. *)
Inductive event : Type :=
| EvReadUpload
| EvTranscode
| EvRecord
| EvRecognize
| EvChatCompletion (prompt : string)
| EvPrint (line : string)
| EvTokenRequest
| EvCreateEvent (bearer : json) (payload : calendar_event).

Definition M (A : Type) : Type := (list event * outcome A)%type.

Definition ret {A} (a : A) : M A := ([], Ok a).
Definition raise {A} (e : exn) : M A := ([], Raise e).
Definition emit (ev : event) : M unit := ([ev], Ok tt).
Definition lift {A} (o : outcome A) : M A := ([], o).

Definition bind {A B} (m : M A) (f : A -> M B) : M B :=
  match m with
  | (t, Ok a) => let '(t', r) := f a in ((t ++ t')%list, r)
  | (t, Raise e) => (t, Raise e)
  end.

Declare Scope py_scope.
Delimit Scope py_scope with py.
Notation "x <- m ;; k" := (bind m (fun x => k))
  (at level 61, m at next level, right associativity) : py_scope.
Notation "m ;;; k" := (bind m (fun _ => k))
  (at level 61, right associativity) : py_scope.
Open Scope py_scope.

Record http_response : Type := mk_response {
  status_code : Z;
  json_body : outcome json  (** what [response.json()] gives *)
}.

(** [response.raise_for_status()]. *)
Definition raise_for_status (r : http_response) : M unit :=
  if (400 <=? status_code r) && (status_code r <? 600)
  then raise (HTTPError (status_code r))
  else ret tt.

(** Everything outside the process that a request meets. *)
Record world : Type := mk_world {
  AUTH_PASSWORD : string;
  transcode_to_wav : string -> outcome string;
  record_audio : string -> outcome string;
  recognize_google : string -> outcome string;
  now : datetime;
  chat_completion : string -> outcome (option string);
  token_endpoint : outcome http_response;
  events_endpoint : json -> calendar_event -> outcome http_response
}.

Record request : Type := mk_request {
  authorization : string;
  content_type : option string;
  upload : string
}.

(** The JSON bodies the endpoint returns. *)
Inductive response : Type :=
| RespError (text : string) (error : string)
| RespEvent (text : string) (parsed : json) (calendar_event : json).

(** Status FastAPI answers with. *)
Definition http_status (r : outcome response) : Z :=
  match r with
  | Ok _ => 200
  | Raise (HTTPException s _) => s
  | Raise _ => 500
  end.

Definition nl : string := String (ascii_of_nat 10) EmptyString.
Definition dquote : string := String (ascii_of_nat 34) EmptyString.

Definition ALLOWED_TYPES : list string :=
  ["audio/wav"; "audio/x-wav"; "audio/flac"; "audio/mpeg"; "audio/mp3"].
Definition WAV_TYPES : list string := ["audio/wav"; "audio/x-wav"].

(** [x in l] for an optional string [x] and a list of strings. *)
Definition py_in (x : option string) (l : list string) : bool :=
  match x with
  | Some s => existsb (String.eqb s) l
  | None => false
  end.

(* ================================================================= *)
(** ** Reference behaviour of the library functions

    The handler calls [json.loads], [datetime.fromisoformat] and
    [pytz]'s [America/New_York] zone. The pipeline below takes them as
    parameters; this module gives executable instances on which the
    pipeline can be run. They cover part of what the libraries accept:
    a JSON decoder for documents without fractions, exponents and [\u]
    escapes (which [json.loads] also decodes); [fromisoformat] for the
    format of Python 3.7 to 3.10,
    [YYYY-MM-DD[*HH[:MM[:SS[.fff[fff]]]][+HH:MM[:SS]]]] (Python 3.11
    accepts more: the basic format, a [Z] suffix, other fractions);
    and the US Eastern rules from 1987 on, as [pytz] applies them. No
    statement about the pipeline depends on them. *)

Module Ref.

Definition is_ws (c : ascii) : bool :=
  let n := PyStr.code c in (n =? 32) || (n =? 9) || (n =? 10) || (n =? 13).

Fixpoint skip_ws (s : string) : string :=
  match s with
  | String c r => if is_ws c then skip_ws r else s
  | EmptyString => s
  end.

Definition digit (c : ascii) : option Z :=
  let n := PyStr.code c in
  if (48 <=? n) && (n <=? 57) then Some (n - 48) else None.

(** The rest of a string literal, after the opening quote. *)
Fixpoint string_body (s : string) : option (string * string) :=
  match s with
  | EmptyString => None
  | String c r =>
      let n := PyStr.code c in
      if n =? 34 then Some (EmptyString, r)
      else if n <? 32 then None
      else if n =? 92 then
        match r with
        | String e r' =>
            let m := PyStr.code e in
            let unescaped :=
              if m =? 34 then Some e
              else if m =? 92 then Some e
              else if m =? 47 then Some e
              else if m =? 110 then Some (ascii_of_nat 10)
              else if m =? 116 then Some (ascii_of_nat 9)
              else if m =? 114 then Some (ascii_of_nat 13)
              else if m =? 98 then Some (ascii_of_nat 8)
              else if m =? 102 then Some (ascii_of_nat 12)
              else None in
            match unescaped, string_body r' with
            | Some a, Some (body, rest) => Some (String a body, rest)
            | _, _ => None
            end
        | EmptyString => None
        end
      else match string_body r with
           | Some (body, rest) => Some (String c body, rest)
           | None => None
           end
  end.

Fixpoint digits (s : string) (acc : Z) : Z * string :=
  match s with
  | String c r =>
      match digit c with
      | Some d => digits r (acc * 10 + d)
      | None => (acc, s)
      end
  | EmptyString => (acc, s)
  end.

(** An integer literal: [0] or a non-zero digit followed by digits;
    a fraction or an exponent is outside this decoder. *)
Definition unsigned_int (s : string) : option (Z * string) :=
  match s with
  | String c r =>
      match digit c with
      | Some d =>
          let '(v, rest) := if d =? 0 then (0, r) else digits r d in
          match rest with
          | String c' _ =>
              if (PyStr.code c' =? 46) || (PyStr.code c' =? 101)
                 || (PyStr.code c' =? 69)
              then None
              else match digit c' with
                   | Some _ => None
                   | None => Some (v, rest)
                   end
          | EmptyString => Some (v, rest)
          end
      | None => None
      end
  | EmptyString => None
  end.

Definition literal (word : string) (v : json) (s : string)
    : option (json * string) :=
  if prefix word s
  then Some (v, substring (String.length word) (String.length s) s)
  else None.

Fixpoint value (fuel : nat) (s : string) : option (json * string) :=
  match fuel with
  | O => None
  | S k =>
      match skip_ws s with
      | EmptyString => None
      | String c r =>
          let n := PyStr.code c in
          if n =? 110 then literal "null" JNull (String c r)
          else if n =? 116 then literal "true" (JBool true) (String c r)
          else if n =? 102 then literal "false" (JBool false) (String c r)
          else if n =? 34 then
            match string_body r with
            | Some (str, rest) => Some (JStr str, rest)
            | None => None
            end
          else if n =? 45 then
            match unsigned_int r with
            | Some (v, rest) => Some (JInt (- v), rest)
            | None => None
            end
          else if n =? 91 then
            match skip_ws r with
            | String c' r' =>
                if PyStr.code c' =? 93 then Some (JArr [], r')
                else
                  (fix elems (m : nat) (s : string) (acc : list json) :=
                     match m with
                     | O => None
                     | S m' =>
                         match value k s with
                         | Some (v, r1) =>
                             match skip_ws r1 with
                             | String d r2 =>
                                 if PyStr.code d =? 44 then elems m' r2 (v :: acc)
                                 else if PyStr.code d =? 93
                                      then Some (JArr (rev (v :: acc)), r2)
                                      else None
                             | EmptyString => None
                             end
                         | None => None
                         end
                     end) k r []
            | EmptyString => None
            end
          else if n =? 123 then
            match skip_ws r with
            | String c' r' =>
                if PyStr.code c' =? 125 then Some (JObj [], r')
                else
                  (fix members (m : nat) (s : string) (acc : list (string * json)) :=
                     match m with
                     | O => None
                     | S m' =>
                         match skip_ws s with
                         | String q s1 =>
                             if PyStr.code q =? 34 then
                               match string_body s1 with
                               | Some (key, s2) =>
                                   match skip_ws s2 with
                                   | String col s3 =>
                                       if PyStr.code col =? 58 then
                                         match value k s3 with
                                         | Some (v, r1) =>
                                             match skip_ws r1 with
                                             | String d r2 =>
                                                 if PyStr.code d =? 44
                                                 then members m' r2 (dict_set acc key v)
                                                 else if PyStr.code d =? 125
                                                      then Some (JObj (dict_set acc key v), r2)
                                                      else None
                                             | EmptyString => None
                                             end
                                         | None => None
                                         end
                                       else None
                                   | EmptyString => None
                                   end
                               | None => None
                               end
                             else None
                         | EmptyString => None
                         end
                     end) k r []
            | EmptyString => None
            end
          else match unsigned_int (String c r) with
               | Some (v, rest) => Some (JInt v, rest)
               | None => None
               end
      end
  end.

(** [json.loads]; [None] stands for [JSONDecodeError]. *)
Definition json_loads (s : string) : option json :=
  match value (S (String.length s)) s with
  | Some (v, rest) =>
      match skip_ws rest with
      | EmptyString => Some v
      | _ => None
      end
  | None => None
  end.

(** *** Calendar arithmetic *)

Definition is_leap (y : Z) : bool :=
  ((y mod 4 =? 0) && negb (y mod 100 =? 0)) || (y mod 400 =? 0).

Definition days_in_month (y m : Z) : Z :=
  if m =? 2 then (if is_leap y then 29 else 28)
  else if (m =? 4) || (m =? 6) || (m =? 9) || (m =? 11) then 30 else 31.

(** Days since 1970-01-01 of a proleptic Gregorian date. *)
Definition days_from_civil (y m d : Z) : Z :=
  let y' := if m <=? 2 then y - 1 else y in
  let era := y' / 400 in
  let yoe := y' - era * 400 in
  let mp := (m + 9) mod 12 in
  let doy := (153 * mp + 2) / 5 + d - 1 in
  let doe := yoe * 365 + yoe / 4 - yoe / 100 + doy in
  era * 146097 + doe - 719468.

(** Day of the week, [0] for Sunday. *)
Definition weekday (y m d : Z) : Z := (days_from_civil y m d + 4) mod 7.

(** The first Sunday on or after day [d] of month [m]. *)
Definition sunday_from (y m d : Z) : Z := d + (7 - weekday y m d) mod 7.

(** Offset, in seconds, that [localize] (with its default
    [is_dst=False]) gives a wall-clock time, for the years from 1987
    on: daylight time from the first Sunday of April to the last Sunday
    of October until 2006, from the second Sunday of March to the first
    Sunday of November from 2007 to 2037, and standard time after 2037,
    where the zone's table ends. A time in the repeated hour is
    standard time and a time in the skipped hour keeps the standard
    offset. Earlier years, with other rules, are not covered. *)
Definition ny_utcoffset (dt : datetime) : Z :=
  let key (mo da h : Z) := (mo * 32 + da) * 24 + h in
  let t := key (month dt) (day dt) (hour dt) in
  let y := year dt in
  let start :=
    if y <=? 2006 then key 4 (sunday_from y 4 1) 3
    else key 3 (sunday_from y 3 8) 3 in
  let stop :=
    if y <=? 2006 then key 10 (sunday_from y 10 25) 1
    else key 11 (sunday_from y 11 1) 1 in
  if (y <=? 2037) && (start <=? t) && (t <? stop) then -14400 else -18000.

(** *** [datetime.fromisoformat] *)

Fixpoint take_digits (n : nat) (s : string) (acc : Z) : option (Z * string) :=
  match n with
  | O => Some (acc, s)
  | S k =>
      match s with
      | String c r =>
          match digit c with
          | Some d => take_digits k r (acc * 10 + d)
          | None => None
          end
      | EmptyString => None
      end
  end.

Definition expect (c : ascii) (s : string) : option string :=
  match s with
  | String a r => if Ascii.eqb a c then Some r else None
  | EmptyString => None
  end.

(** [HH[:MM[:SS[.fff[fff]]]]], the whole of [s];
    with [frac = false] no fraction is allowed. *)
Definition hh_mm_ss_ff (frac : bool) (s : string) : option (Z * Z * Z * Z) :=
  match take_digits 2 s 0 with
  | None => None
  | Some (h, EmptyString) => Some (h, 0, 0, 0)
  | Some (h, s1) =>
      match expect ":" s1 with
      | None => None
      | Some s2 =>
          match take_digits 2 s2 0 with
          | None => None
          | Some (mi, EmptyString) => Some (h, mi, 0, 0)
          | Some (mi, s3) =>
              match expect ":" s3 with
              | None => None
              | Some s4 =>
                  match take_digits 2 s4 0 with
                  | None => None
                  | Some (se, EmptyString) => Some (h, mi, se, 0)
                  | Some (se, s5) =>
                      match expect "." s5 with
                      | None => None
                      | Some s6 =>
                          if negb frac then None
                          else if Nat.eqb (String.length s6) 3 then
                            match take_digits 3 s6 0 with
                            | Some (us, _) => Some (h, mi, se, us * 1000)
                            | None => None
                            end
                          else if Nat.eqb (String.length s6) 6 then
                            match take_digits 6 s6 0 with
                            | Some (us, _) => Some (h, mi, se, us)
                            | None => None
                            end
                          else None
                      end
                  end
              end
          end
      end
  end.

(** Splits a time string at its first sign character. *)
Fixpoint split_tz (s : string) : string * option (bool * string) :=
  match s with
  | EmptyString => (EmptyString, None)
  | String c r =>
      if Ascii.eqb c "+" then (EmptyString, Some (false, r))
      else if Ascii.eqb c "-" then (EmptyString, Some (true, r))
      else let '(t, z) := split_tz r in (String c t, z)
  end.

Definition valid_date (y m d : Z) : bool :=
  (1 <=? y) && (y <=? 9999) && (1 <=? m) && (m <=? 12)
  && (1 <=? d) && (d <=? days_in_month y m).

Definition valid_time (h mi se : Z) : bool :=
  (h <? 24) && (mi <? 60) && (se <? 60).

Definition fromisoformat (s : string) : outcome datetime :=
  match take_digits 4 s 0 with
  | None => Raise ValueError
  | Some (y, s1) =>
  match expect "-" s1 with
  | None => Raise ValueError
  | Some s2 =>
  match take_digits 2 s2 0 with
  | None => Raise ValueError
  | Some (m, s3) =>
  match expect "-" s3 with
  | None => Raise ValueError
  | Some s4 =>
  match take_digits 2 s4 0 with
  | None => Raise ValueError
  | Some (d, s5) =>
      if negb (valid_date y m d) then Raise ValueError
      else
        match s5 with
        | EmptyString => Ok (mk_datetime y m d 0 0 0 0 None)
        | String _ tstr =>
            let '(t, z) := split_tz tstr in
            match hh_mm_ss_ff true t with
            | None => Raise ValueError
            | Some (h, mi, se, us) =>
                if negb (valid_time h mi se) then Raise ValueError
                else
                  match z with
                  | None => Ok (mk_datetime y m d h mi se us None)
                  | Some (neg, zstr) =>
                      if Nat.ltb (String.length zstr) 5 then Raise ValueError
                      else
                        match hh_mm_ss_ff false zstr with
                        | None => Raise ValueError
                        | Some (zh, zm, zs, _) =>
                            let off := zh * 3600 + zm * 60 + zs in
                            if 86400 <=? off then Raise ValueError
                            else Ok (mk_datetime y m d h mi se us
                                       (Some (if neg then - off else off)))
                        end
                  end
            end
        end
  end end end end end.

End Ref.

(* ================================================================= *)
(** ** The pipeline *)

Section Pipeline.

(** [json.loads]; [None] stands for [JSONDecodeError]. *)
Variable json_loads : string -> option json.
(** [datetime.datetime.fromisoformat] on a [str]. *)
Variable fromisoformat : string -> outcome datetime.
(** The offset, in seconds, that the [America/New_York] zone of [pytz]
    assigns to a naive wall-clock time. *)
Variable ny_utcoffset : datetime -> Z.

(** [EST.localize(dt)]: refuses a datetime that already has a
    [tzinfo]; otherwise keeps the wall-clock fields and attaches the
    zone's offset. *)
Definition localize (dt : datetime) : outcome datetime :=
  match tzinfo dt with
  | Some _ => Raise ValueError
  | None =>
      Ok (mk_datetime (year dt) (month dt) (day dt) (hour dt) (minute dt)
            (second dt) (microsecond dt) (Some (ny_utcoffset dt)))
  end.

(** [datetime.datetime.fromisoformat(v)] on a decoded JSON value. *)
Definition py_fromisoformat (v : json) : outcome datetime :=
  match v with
  | JStr s => fromisoformat s
  | _ => Raise TypeError
  end.

(** [get_nearest_color_id(v)] on a decoded JSON value: only a [str]
    has [lstrip]. *)
Definition py_get_nearest_color_id (v : json) : outcome string :=
  match v with
  | JStr s =>
      match get_nearest_color_id s with
      | Some cid => Ok cid
      | None => Raise ValueError
      end
  | _ => Raise AttributeError
  end.

Definition get_access_token (w : world) : M json :=
  emit EvTokenRequest ;;;
  response <- lift (token_endpoint w) ;;
  raise_for_status response ;;;
  body <- lift (json_body response) ;;
  lift (py_get body "access_token").

Definition add_event (w : world) (access_token summary color_hex : json)
    (start_datetime_est : datetime) : M json :=
  localized <- lift (localize start_datetime_est) ;;
  let iso_dt := Fmt.isoformat localized in
  color_id <- lift (py_get_nearest_color_id (py_or color_hex (JStr "#008080"))) ;;
  let event :=
    {| ev_summary := summary;
       ev_start_dateTime := iso_dt; ev_start_timeZone := "America/New_York";
       ev_end_dateTime := iso_dt; ev_end_timeZone := "America/New_York";
       ev_colorId := color_id |} in
  emit (EvCreateEvent access_token event) ;;;
  response <- lift (events_endpoint w access_token event) ;;
  raise_for_status response ;;;
  lift (json_body response).

Definition prompt_for (today user_input : string) : string :=
  "Assume today's date is " ++ today ++ "." ++ nl
  ++ "Extract from this text the title, the color (as hex if named or hex given, else null), "
  ++ "and the datetime (ISO format, or null if none)." ++ nl ++ nl
  ++ "Text: " ++ dquote ++ user_input ++ dquote ++ nl ++ nl
  ++ "Return ONLY a JSON object with keys: title, color, datetime."
  ++ "If the date is not specified, set it to today at noon or tomorrow at noon if it's already past noon."
  ++ "If the color is not mentioned, set it to teal."
  ++ "If datetime is before or at now, return null for datetime.".

(** The text that [call_gpt] prints: the content without its first and
    last lines when it starts with a code fence. *)
Definition strip_fence (content : string) : string :=
  if PyStr.startswith content "```"
  then PyStr.join nl (PyStr.slice_1_m1 (PyStr.split (ascii_of_nat 10) content))
  else content.

Definition call_gpt (w : world) (user_input : string) : M json :=
  let today := Fmt.strftime_Ymd (now w) in
  let prompt := prompt_for today user_input in
  emit (EvChatCompletion prompt) ;;;
  message <- lift (chat_completion w prompt) ;;
  match message with
  | None => raise AttributeError
  | Some raw =>
      let content := strip_fence raw in
      emit (EvPrint ("GPT response: " ++ content)) ;;;
      match json_loads raw with
      | Some v => ret v
      | None => raise JSONDecodeError
      end
  end.

(** The part of [process_audio] between the two guards and the end of
    the [try] block: reading the upload, transcoding, recording and
    recognition. The recogniser's outcome is returned as a value, for
    the [except] clauses of the caller. *)
Definition transcribe (w : world) (rq : request) : M (outcome string) :=
  emit EvReadUpload ;;;
  let audio_bytes := upload rq in
  wav <- (if negb (py_in (content_type rq) WAV_TYPES)
          then emit EvTranscode ;;; lift (transcode_to_wav w audio_bytes)
          else ret audio_bytes) ;;
  emit EvRecord ;;;
  audio_record <- lift (record_audio w wav) ;;
  emit EvRecognize ;;;
  ret (recognize_google w audio_record).

(** The part of [process_audio] after the [try] block: extraction,
    the datetime check, token acquisition and event creation. *)
Definition after_transcription (w : world) (text : string) : M response :=
  gpt_data <- call_gpt w text ;;
  dt <- lift (py_get gpt_data "datetime") ;;
  if negb (truthy dt)
  then ret (RespError text "Invalid or past datetime in input")
  else
    access_token <- get_access_token w ;;
    title <- lift (py_get gpt_data "title") ;;
    let summary := py_or title (JStr "No Title") in
    color <- lift (py_get gpt_data "color") ;;
    let color_hex := py_or color (JStr "#008080") in
    start_dt <- lift (py_fromisoformat dt) ;;
    event_result <- add_event w access_token summary color_hex start_dt ;;
    ret (RespEvent text gpt_data event_result).

Definition process_audio (w : world) (rq : request) : M response :=
  if negb (String.eqb (authorization rq) (AUTH_PASSWORD w))
  then raise (HTTPException 401 "Unauthorized")
  else if negb (py_in (content_type rq) ALLOWED_TYPES)
  then raise (HTTPException 400 "Unsupported file type")
  else
    recognized <- transcribe w rq ;;
    match recognized with
    | Raise UnknownValueError => ret (RespError EmptyString "Could not understand audio")
    | Raise RequestError => ret (RespError EmptyString "Speech Recognition service error")
    | Raise e => raise e
    | Ok text => after_transcription w text
    end.

End Pipeline.

(** The colour resolver with the caller's default applied:
    [resolve(colorHex)] of the specification, [colorHex] being null
    ([None]) or a string. *)
Definition resolve (color_hex : option string) : outcome string :=
  py_get_nearest_color_id
    (py_or (match color_hex with Some s => JStr s | None => JNull end)
       (JStr "#008080")).

(* ================================================================= *)
(** ** Vocabulary of the statements *)

(** Calls to the calendar backend: token exchange and event creation. *)
Definition calendar_call (e : event) : bool :=
  match e with
  | EvTokenRequest | EvCreateEvent _ _ => true
  | _ => false
  end.

(** Calls made after transcription: extraction, token, calendar. *)
Definition downstream_call (e : event) : bool :=
  match e with
  | EvChatCompletion _ | EvTokenRequest | EvCreateEvent _ _ => true
  | _ => false
  end.

Definition creates_event (e : event) : bool :=
  match e with
  | EvCreateEvent _ _ => true
  | _ => false
  end.

Definition no_newline (s : string) : bool :=
  forallb (fun c => negb (Ascii.eqb c (ascii_of_nat 10))) (list_ascii_of_string s).

(** [str.lower()] on ASCII letters. *)
Fixpoint lower (s : string) : string :=
  match s with
  | EmptyString => EmptyString
  | String c r =>
      let n := PyStr.code c in
      String (if (65 <=? n) && (n <=? 90) then ascii_of_N (Z.to_N (n + 32)) else c)
        (lower r)
  end.

(** The text of a fenced answer: an opening fence line, the body, a
    closing fence. *)
Definition fenced (lang body : string) : string :=
  "```" ++ lang ++ nl ++ body ++ nl ++ "```".

(** The datetime with its wall-clock fields kept and the zone's offset
    attached. *)
Definition with_offset (off : Z) (dt : datetime) : datetime :=
  mk_datetime (year dt) (month dt) (day dt) (hour dt) (minute dt) (second dt)
    (microsecond dt) (Some off).

(** The payload [add_event] sends for a naive start. *)
Definition payload_of (ny_utcoffset : datetime -> Z) (summary : json)
    (color_id : string) (start : datetime) : calendar_event :=
  let iso := Fmt.isoformat (with_offset (ny_utcoffset start) start) in
  {| ev_summary := summary;
     ev_start_dateTime := iso; ev_start_timeZone := "America/New_York";
     ev_end_dateTime := iso; ev_end_timeZone := "America/New_York";
     ev_colorId := color_id |}.

(** [d.get(k)] on a [dict]. *)
Definition field (d : list (string * json)) (k : string) : json :=
  match dict_get d k with Some x => x | None => JNull end.

(** The statement of the specification that a datetime at or before
    the reference [now] is rejected: whenever the extracted datetime
    parses to a wall-clock time not after [now w], the handler answers
    with the soft outcome and creates no event. *)
Definition rejects_past (json_loads : string -> option json)
    (fromisoformat : string -> outcome datetime)
    (ny_utcoffset : datetime -> Z) : Prop :=
  forall (w : world) (rq : request) (tr : list event) (text raw s : string)
         (d : list (string * json)) (start : datetime),
    authorization rq = AUTH_PASSWORD w ->
    py_in (content_type rq) ALLOWED_TYPES = true ->
    transcribe w rq = (tr, Ok (Ok text)) ->
    chat_completion w (prompt_for (Fmt.strftime_Ymd (now w)) text) = Ok (Some raw) ->
    json_loads raw = Some (JObj d) ->
    dict_get d "datetime" = Some (JStr s) ->
    fromisoformat s = Ok start ->
    wall_leb start (now w) = true ->
    snd (process_audio json_loads fromisoformat ny_utcoffset w rq)
      = Ok (RespError text "Invalid or past datetime in input")
    /\ existsb creates_event
         (fst (process_audio json_loads fromisoformat ny_utcoffset w rq)) = false.

(* ================================================================= *)
(** ** Scenarios: concrete requests and collaborators *)

Module Scenario.

Definition jstr (s : string) : string := dquote ++ s ++ dquote.

(** An extractor answer with the three keys. *)
Definition answer (title color dt : string) : string :=
  "{" ++ jstr "title" ++ ": " ++ title ++ ", " ++ jstr "color" ++ ": " ++ color
  ++ ", " ++ jstr "datetime" ++ ": " ++ dt ++ "}".

Definition token_ok : http_response :=
  {| status_code := 200;
     json_body := Ok (JObj [("access_token", JStr "ya29.a0"); ("expires_in", JInt 3599)]) |}.

Definition created : http_response :=
  {| status_code := 200;
     json_body := Ok (JObj [("id", JStr "evt1"); ("status", JStr "confirmed")]) |}.

Definition transcript : string := "lunch with sam tomorrow at noon in blue".

(** Collaborators that all succeed; the recogniser and the extractor
    answer as given. *)
Definition world_of (heard : outcome string) (content : string) (clock : datetime)
    : world :=
  {| AUTH_PASSWORD := "defaultpass";
     transcode_to_wav := fun b => Ok b;
     record_audio := fun b => Ok b;
     recognize_google := fun _ => heard;
     now := clock;
     chat_completion := fun _ => Ok (Some content);
     token_endpoint := Ok token_ok;
     events_endpoint := fun _ _ => Ok created |}.

(** 2024-01-01T15:00:00. *)
Definition reference_now : datetime := mk_datetime 2024 1 1 15 0 0 0 None.

Definition wav_request : request :=
  {| authorization := "defaultpass"; content_type := Some "audio/wav";
     upload := "RIFF" |}.

Definition intruder_request : request :=
  {| authorization := "letmein"; content_type := Some "video/mp4";
     upload := "RIFF" |}.

Definition video_request : request :=
  {| authorization := "defaultpass"; content_type := Some "video/mp4";
     upload := "RIFF" |}.

(** The extractor answers with a time one second before [reference_now]. *)
Definition past_answer : string :=
  answer (jstr "lunch with sam") (jstr "#0000ff") (jstr "2024-01-01T14:59:59").
Definition past_world : world := world_of (Ok transcript) past_answer reference_now.

Definition null_answer : string := answer (jstr "lunch with sam") (jstr "#0000ff") "null".
Definition null_world : world := world_of (Ok transcript) null_answer reference_now.

Definition untitled_answer : string :=
  answer "null" "null" (jstr "2024-01-02T09:00:00").
Definition untitled_world : world :=
  world_of (Ok transcript) untitled_answer reference_now.

Definition offset_answer : string :=
  answer (jstr "lunch with sam") "null" (jstr "2024-01-02T09:00:00-05:00").
Definition offset_world : world := world_of (Ok transcript) offset_answer reference_now.

Definition fenced_answer : string := fenced "json" past_answer.
Definition fenced_world : world := world_of (Ok transcript) fenced_answer reference_now.

Definition mp3_request : request :=
  {| authorization := "defaultpass"; content_type := Some "audio/mp3";
     upload := "ID3" |}.

(** The recogniser cannot make out the speech, or cannot reach its
    service. *)
Definition inaudible_world : world :=
  world_of (Raise UnknownValueError) EmptyString reference_now.

Definition run (w : world) (rq : request) : M response :=
  process_audio Ref.json_loads Ref.fromisoformat Ref.ny_utcoffset w rq.

End Scenario.

(* ================================================================= *)
(** ** Further constants and vocabulary *)

Definition CSS_COLOR_NAMES : list (string * string) :=
  [ ("red", "#ff0000"); ("lightred", "#ff6666"); ("darkred", "#8b0000");
    ("blue", "#0000ff"); ("lightblue", "#add8e6"); ("darkblue", "#00008b");
    ("green", "#008000"); ("lightgreen", "#90ee90"); ("darkgreen", "#006400");
    ("yellow", "#ffff00"); ("lightyellow", "#ffffe0"); ("darkyellow", "#bdb76b");
    ("orange", "#ffa500"); ("lightorange", "#ffb347"); ("darkorange", "#ff8c00");
    ("purple", "#800080"); ("lightpurple", "#dab5d3"); ("darkpurple", "#4b0082");
    ("pink", "#ffc0cb"); ("lightpink", "#ffb6c1"); ("darkpink", "#ff69b4");
    ("gray", "#808080"); ("lightgray", "#d3d3d3"); ("darkgray", "#a9a9a9");
    ("black", "#000000"); ("white", "#ffffff"); ("teal", "#008080") ].

(** [CSS_COLOR_NAMES.get(name)]. *)
Fixpoint css_get (table : list (string * string)) (name : string) : option string :=
  match table with
  | [] => None
  | (k, v) :: rest => if String.eqb k name then Some v else css_get rest name
  end.

(** [n] characters [#]. *)
Fixpoint hashes (n : nat) : string :=
  match n with
  | O => EmptyString
  | S k => String "#" (hashes k)
  end.

(** A well-formed colour of the tables: [#] and six hexadecimal digits. *)
Definition is_hash_hex6 (s : string) : bool :=
  match s with
  | String c r => Ascii.eqb c "#" && is_hex6 r
  | EmptyString => false
  end.

(** The same collaborators at another moment. *)
Definition set_now (w : world) (clock : datetime) : world :=
  {| AUTH_PASSWORD := AUTH_PASSWORD w;
     transcode_to_wav := transcode_to_wav w;
     record_audio := record_audio w;
     recognize_google := recognize_google w;
     now := clock;
     chat_completion := chat_completion w;
     token_endpoint := token_endpoint w;
     events_endpoint := events_endpoint w |}.

(** An HTTP status on which [raise_for_status] raises. *)
Definition is_error_status (s : Z) : bool := (400 <=? s) && (s <? 600).

(** The events [process_audio] emits after transcription. *)
Definition upstream_call (e : event) : bool :=
  match e with
  | EvReadUpload | EvTranscode | EvRecord | EvRecognize => true
  | _ => false
  end.

Module Edge.

(** Collaborators as in [Scenario.world_of], with the two calendar
    endpoints answering as given. *)
Definition world_with (content : option string) (token : outcome http_response)
    (events : outcome http_response) : world :=
  {| AUTH_PASSWORD := "defaultpass";
     transcode_to_wav := fun b => Ok b;
     record_audio := fun b => Ok b;
     recognize_google := fun _ => Ok Scenario.transcript;
     now := Scenario.reference_now;
     chat_completion := fun _ => Ok content;
     token_endpoint := token;
     events_endpoint := fun _ _ => events |}.

Definition future_answer : string :=
  Scenario.answer (Scenario.jstr "lunch with sam") (Scenario.jstr "#0000ff")
    (Scenario.jstr "2024-01-02T09:00:00").

Definition future_fields : list (string * json) :=
  [("title", JStr "lunch with sam"); ("color", JStr "#0000ff");
   ("datetime", JStr "2024-01-02T09:00:00")].

Definition future_start : datetime := mk_datetime 2024 1 2 9 0 0 0 None.

Definition future_payload : calendar_event :=
  payload_of Ref.ny_utcoffset (JStr "lunch with sam") "9" future_start.

Definition unauthorized : http_response :=
  {| status_code := 401; json_body := Ok (JObj [("error", JStr "invalid_grant")]) |}.

Definition token_without_key : http_response :=
  {| status_code := 200; json_body := Ok (JObj [("expires_in", JInt 3599)]) |}.

(** Collaborators whose audio stages answer as given; the later
    stages are not reached in the runs that use them. *)
Definition world_audio (transcoded recorded heard : outcome string) : world :=
  {| AUTH_PASSWORD := "defaultpass";
     transcode_to_wav := fun _ => transcoded;
     record_audio := fun _ => recorded;
     recognize_google := fun _ => heard;
     now := Scenario.reference_now;
     chat_completion := fun _ => Ok None;
     token_endpoint := Ok Scenario.token_ok;
     events_endpoint := fun _ _ => Ok Scenario.created |}.

Definition forbidden : http_response :=
  {| status_code := 403; json_body := Ok (JObj [("error", JStr "forbidden")]) |}.

(** Extractor answers with one odd field each. *)
Definition numeric_datetime_answer : string :=
  Scenario.answer (Scenario.jstr "lunch with sam") "null" "5".
Definition worded_datetime_answer : string :=
  Scenario.answer (Scenario.jstr "lunch with sam") "null" (Scenario.jstr "tomorrow").
Definition short_colour_answer : string :=
  Scenario.answer (Scenario.jstr "lunch with sam") (Scenario.jstr "#fff")
    (Scenario.jstr "2024-01-02T09:00:00").
Definition numeric_colour_answer : string :=
  Scenario.answer (Scenario.jstr "lunch with sam") "7"
    (Scenario.jstr "2024-01-02T09:00:00").
Definition falsy_answer : string :=
  Scenario.answer "0" "false" (Scenario.jstr "2024-01-02T09:00:00").

Definition run (w : world) (rq : request) : M response :=
  process_audio Ref.json_loads Ref.fromisoformat Ref.ny_utcoffset w rq.

End Edge.

(** The position of a call in the pipeline. *)
Definition stage (e : event) : nat :=
  match e with
  | EvReadUpload => 0
  | EvTranscode => 1
  | EvRecord => 2
  | EvRecognize => 3
  | EvChatCompletion _ => 4
  | EvPrint _ => 5
  | EvTokenRequest => 6
  | EvCreateEvent _ _ => 7
  end.

(** Each call of [l] is the stage after the previous one; only
    transcoding, between reading and recording, may be skipped. *)
Fixpoint follows (prev : nat) (l : list event) : bool :=
  match l with
  | [] => true
  | e :: rest =>
      (Nat.eqb (stage e) (S prev) || (Nat.eqb prev 0 && Nat.eqb (stage e) 2))
      && follows (stage e) rest
  end.

(** A trace that starts with reading the upload and goes through the
    stages in order. *)
Definition in_order (l : list event) : bool :=
  match l with
  | [] => true
  | e :: rest => Nat.eqb (stage e) 0 && follows 0 rest
  end.

(* ================================================================= *)
(** ** The colour resolver as the specification words it

    These definitions do not use the embedding of the code: the value
    of a hexadecimal digit is a table, the palette is written in
    numbers, and the distance is the Euclidean formula over the
    reals. *)

(** The value of a hexadecimal digit is its place among the sixteen
    digits, in either case of the letters. *)
Definition spec_hex_value (c : ascii) : option Z :=
  match index 0 (String c EmptyString) "0123456789abcdef" with
  | Some place => Some (Z.of_nat place)
  | None =>
      match index 0 (String c EmptyString) "ABCDEF" with
      | Some place => Some (10 + Z.of_nat place)
      | None => None
      end
  end.

(** The (R, G, B) triple of six hexadecimal digits; [None] for any
    other string. *)
Definition spec_rgb (s : string) : option rgb :=
  match s with
  | String c1 (String c2 (String c3 (String c4 (String c5
      (String c6 EmptyString))))) =>
      match spec_hex_value c1, spec_hex_value c2, spec_hex_value c3,
            spec_hex_value c4, spec_hex_value c5, spec_hex_value c6 with
      | Some v1, Some v2, Some v3, Some v4, Some v5, Some v6 =>
          Some (16 * v1 + v2, 16 * v3 + v4, 16 * v5 + v6)
      | _, _, _, _, _, _ => None
      end
  | _ => None
  end.

(** The 11 palette colours, in definition order. *)
Definition SPEC_PALETTE : list (string * rgb) :=
  [ ("1", (164, 189, 252)); ("2", (122, 231, 191)); ("3", (219, 173, 255));
    ("4", (255, 136, 124)); ("5", (251, 215, 91)); ("6", (255, 184, 120));
    ("7", (70, 214, 219)); ("8", (225, 225, 225)); ("9", (84, 132, 237));
    ("10", (81, 183, 73)); ("11", (220, 33, 39)) ].

(** [sqrt((r1-r2)^2 + (g1-g2)^2 + (b1-b2)^2)]. *)
Definition spec_distance (p q : rgb) : R :=
  let '(r1, g1, b1) := p in
  let '(r2, g2, b2) := q in
  R_sqrt.sqrt ((IZR r1 - IZR r2) ^ 2 + (IZR g1 - IZR g2) ^ 2
               + (IZR b1 - IZR b2) ^ 2)%R.

(* ================================================================= *)
(** * Proofs *)


Module Float64Facts.
Import Float64.

Lemma ltb_rank (x y : spec_float) :
  good x = true -> good y = true -> ltb x y = (rank x <? rank y).
Proof.
  unfold ltb, SFltb.
  destruct x as [sx| | |[|] mx ex], y as [sy| | |[|] my ey];
    cbn [good rank SFcompare]; try discriminate; intros Hx Hy.
  - reflexivity.
  - apply andb_prop in Hy as [Hm He].
    apply Z.ltb_lt in Hm, He. symmetry. apply Z.ltb_lt. lia.
  - apply andb_prop in Hx as [Hm He].
    apply Z.ltb_lt in Hm, He. symmetry. apply Z.ltb_ge. lia.
  - apply andb_prop in Hx as [Hmx Hex], Hy as [Hmy Hey].
    apply Z.ltb_lt in Hmx, Hex, Hmy, Hey.
    destruct (Z.compare_spec ex ey) as [E|L|G].
    + subst ey. change (Pos.compare_cont Eq mx my) with (Pos.compare mx my).
      destruct (Pos.compare_spec mx my) as [E'|L'|G'];
        symmetry; [apply Z.ltb_ge|apply Z.ltb_lt|apply Z.ltb_ge]; lia.
    + symmetry. apply Z.ltb_lt. lia.
    + symmetry. apply Z.ltb_ge. lia.
Qed.

Lemma ltb_inf (x : spec_float) : good x = true -> ltb x inf = true.
Proof. destruct x as [s| | |[|] m e]; cbn; try discriminate; reflexivity. Qed.

Lemma mono_from_sound (fuel : nat) :
  forall n prev, mono_from fuel n prev = true ->
    (forall i, n <= i < n + Z.of_nat fuel ->
       good (sqrt_int i) = true /\ prev < rank (sqrt_int i)) /\
    (forall i j, n <= i -> i < j -> j < n + Z.of_nat fuel ->
       rank (sqrt_int i) < rank (sqrt_int j)).
Proof.
  induction fuel as [|k IH]; intros n prev H.
  - split; intros; lia.
  - cbn [mono_from] in H.
    apply andb_prop in H as [H Hrest]. apply andb_prop in H as [Hg Hp].
    apply Z.ltb_lt in Hp.
    destruct (IH _ _ Hrest) as [IH1 IH2].
    split.
    + intros i Hi. destruct (Z.eq_dec i n) as [->|Hne].
      * split; assumption.
      * destruct (IH1 i) as [G L]; [lia|]. split; [exact G|lia].
    + intros i j Hi Hij Hj. destruct (Z.eq_dec i n) as [->|Hne].
      * destruct (IH1 j) as [_ L]; [lia|]. exact L.
      * apply IH2; lia.
Qed.

Lemma sqrt_table : mono_from (Z.to_nat (max_sq + 1)) 0 (-1) = true.
Proof. vm_cast_no_check (eq_refl true). Qed.

Lemma sqrt_good (a : Z) : 0 <= a <= max_sq -> good (sqrt_int a) = true.
Proof.
  intros Ha. destruct (mono_from_sound _ _ _ sqrt_table) as [H _].
  apply H. unfold max_sq in *. lia.
Qed.

Lemma sqrt_rank_mono (a b : Z) :
  0 <= a -> a < b -> b <= max_sq -> rank (sqrt_int a) < rank (sqrt_int b).
Proof.
  intros Ha Hab Hb. destruct (mono_from_sound _ _ _ sqrt_table) as [_ H].
  apply H; unfold max_sq in *; lia.
Qed.

(** On the integers that occur as squared colour distances, comparing
    the computed square roots is comparing the integers. *)
Lemma sqrt_ltb (a b : Z) :
  0 <= a <= max_sq -> 0 <= b <= max_sq ->
  ltb (sqrt_int a) (sqrt_int b) = (a <? b).
Proof.
  intros Ha Hb. rewrite ltb_rank by (apply sqrt_good; assumption).
  destruct (Z.ltb_spec a b) as [L|G].
  - apply Z.ltb_lt. apply sqrt_rank_mono; lia.
  - apply Z.ltb_ge. destruct (Z.eq_dec a b) as [->|Hne]; [lia|].
    assert (rank (sqrt_int b) < rank (sqrt_int a)) by (apply sqrt_rank_mono; lia).
    lia.
Qed.

Lemma sqrt_ltb_inf (a : Z) : 0 <= a <= max_sq -> ltb (sqrt_int a) inf = true.
Proof. intros Ha. apply ltb_inf, sqrt_good, Ha. Qed.

End Float64Facts.


(** ** Hexadecimal parsing *)

Lemma hex_digit_char (c : ascii) (d : Z) :
  PyStr.hex_digit c = Some d ->
  0 <= d <= 15 /\ PyStr.isspace c = false /\
  Ascii.eqb c "#" = false /\ Ascii.eqb c "+" = false /\
  Ascii.eqb c "-" = false /\ Ascii.eqb c "_" = false /\
  Ascii.eqb c "x" = false /\ Ascii.eqb c "X" = false.
Proof.
  destruct c as [[] [] [] [] [] [] [] []]; vm_compute; intros H;
    try discriminate H; injection H as <-;
    repeat split; try reflexivity; discriminate.
Qed.

Lemma int16_pair (a b : ascii) (x y : Z) :
  PyStr.hex_digit a = Some x -> PyStr.hex_digit b = Some y ->
  PyStr.int16 (String a (String b EmptyString)) = Some (x * 16 + y).
Proof.
  intros Ha Hb.
  destruct (hex_digit_char _ _ Ha) as (_ & Sa & _ & Pa & Ma & Ua & _ & _).
  destruct (hex_digit_char _ _ Hb) as (_ & Sb & _ & _ & _ & Ub & Xb & XXb).
  unfold PyStr.int16, PyStr.strip. cbn [PyStr.lstrip_space]. rewrite Sa.
  cbn [PyStr.rstrip_space]. rewrite Sb. rewrite Pa, Ma.
  unfold PyStr.hex_unsigned, PyStr.has_0x. rewrite Xb, XXb, andb_false_r.
  cbn [PyStr.hex_body]. rewrite Ua, Ha, Ub, Hb. cbn. f_equal.
Qed.

Lemma is_hex6_inv (s : string) :
  is_hex6 s = true ->
  exists a1 a2 a3 a4 a5 a6 d1 d2 d3 d4 d5 d6,
    s = String a1 (String a2 (String a3 (String a4 (String a5 (String a6 EmptyString)))))
    /\ PyStr.hex_digit a1 = Some d1 /\ PyStr.hex_digit a2 = Some d2
    /\ PyStr.hex_digit a3 = Some d3 /\ PyStr.hex_digit a4 = Some d4
    /\ PyStr.hex_digit a5 = Some d5 /\ PyStr.hex_digit a6 = Some d6.
Proof.
  unfold is_hex6. intros H. apply andb_prop in H as [Hl Hd].
  apply Nat.eqb_eq in Hl.
  destruct s as [|a1 [|a2 [|a3 [|a4 [|a5 [|a6 [|a7 s]]]]]]]; try discriminate Hl.
  cbn [list_ascii_of_string forallb] in Hd.
  repeat (apply andb_prop in Hd as [? Hd]).
  exists a1, a2, a3, a4, a5, a6.
  destruct (PyStr.hex_digit a1) as [d1|]; [|discriminate].
  destruct (PyStr.hex_digit a2) as [d2|]; [|discriminate].
  destruct (PyStr.hex_digit a3) as [d3|]; [|discriminate].
  destruct (PyStr.hex_digit a4) as [d4|]; [|discriminate].
  destruct (PyStr.hex_digit a5) as [d5|]; [|discriminate].
  destruct (PyStr.hex_digit a6) as [d6|]; [|discriminate].
  exists d1, d2, d3, d4, d5, d6. repeat split; reflexivity.
Qed.

Lemma lstrip_hash (s : string) :
  PyStr.lstrip "#" (String "#" s) = PyStr.lstrip "#" s.
Proof. reflexivity. Qed.

(** A six-digit colour, with or without its [#], parses to three bytes. *)
Lemma hex_to_rgb_hex6 (s : string) :
  is_hex6 s = true ->
  exists t, hex_to_rgb s = Some t /\ hex_to_rgb ("#" ++ s) = Some t /\ byte_rgb t.
Proof.
  intros H.
  destruct (is_hex6_inv s H)
    as (a1 & a2 & a3 & a4 & a5 & a6 & d1 & d2 & d3 & d4 & d5 & d6
        & -> & H1 & H2 & H3 & H4 & H5 & H6).
  destruct (hex_digit_char _ _ H1) as (B1 & _ & N1 & _).
  destruct (hex_digit_char _ _ H2) as (B2 & _).
  destruct (hex_digit_char _ _ H3) as (B3 & _).
  destruct (hex_digit_char _ _ H4) as (B4 & _).
  destruct (hex_digit_char _ _ H5) as (B5 & _).
  destruct (hex_digit_char _ _ H6) as (B6 & _).
  exists (d1 * 16 + d2, d3 * 16 + d4, d5 * 16 + d6).
  split; [|split].
  - unfold hex_to_rgb. cbn [PyStr.lstrip]. rewrite N1.
    cbn [PyStr.slice substring].
    rewrite (int16_pair _ _ _ _ H1 H2), (int16_pair _ _ _ _ H3 H4),
      (int16_pair _ _ _ _ H5 H6). reflexivity.
  - unfold hex_to_rgb. cbn [append]. rewrite lstrip_hash.
    cbn [PyStr.lstrip]. rewrite N1.
    cbn [PyStr.slice substring].
    rewrite (int16_pair _ _ _ _ H1 H2), (int16_pair _ _ _ _ H3 H4),
      (int16_pair _ _ _ _ H5 H6). reflexivity.
  - cbn. lia.
Qed.

(** ** The search loop *)

Lemma sq_byte_diff (x y : Z) :
  0 <= x <= 255 -> 0 <= y <= 255 -> 0 <= (x - y) ^ 2 <= 65025.
Proof.
  intros Hx Hy. rewrite Z.pow_2_r.
  assert (H : -255 <= x - y <= 255) by lia.
  generalize dependent (x - y). intros d Hd. nia.
Qed.

Lemma dist_sq_range (p q : rgb) :
  byte_rgb p -> byte_rgb q -> 0 <= dist_sq p q <= Float64.max_sq.
Proof.
  destruct p as [[r1 g1] b1], q as [[r2 g2] b2].
  unfold byte_rgb, dist_sq, Float64.max_sq. intros (R1 & G1 & B1) (R2 & G2 & B2).
  pose proof (sq_byte_diff r1 r2 R1 R2).
  pose proof (sq_byte_diff g1 g2 G1 G2).
  pose proof (sq_byte_diff b1 b2 B1 B2). lia.
Qed.

Lemma palette_rgb_eq :
  palette_rgb =
  [ ("1", (164, 189, 252)); ("2", (122, 231, 191)); ("3", (219, 173, 255));
    ("4", (255, 136, 124)); ("5", (251, 215, 91)); ("6", (255, 184, 120));
    ("7", (70, 214, 219)); ("8", (225, 225, 225)); ("9", (84, 132, 237));
    ("10", (81, 183, 73)); ("11", (220, 33, 39)) ].
Proof. reflexivity. Qed.

Lemma palette_rgb_bytes : Forall (fun e => byte_rgb (snd e)) palette_rgb.
Proof. rewrite palette_rgb_eq. repeat constructor; cbn; lia. Qed.




Lemma nearest_loop_sq (t : rgb) (Ht : byte_rgb t) :
  forall (items : list (string * string)) (ps : list (string * rgb)) m best,
    Forall2 (fun e p => fst e = fst p /\ hex_to_rgb (snd e) = Some (snd p)
                        /\ byte_rgb (snd p)) items ps ->
    sq_ok m ->
    nearest_loop t items (as_float m, best) =
    Some (as_float (fst (fold_left (sq_step t) ps (m, best))),
          snd (fold_left (sq_step t) ps (m, best))).
Proof.
  induction items as [|[cid hex] items IH]; intros ps m best HF Hm.
  - inversion HF; subst. reflexivity.
  - inversion HF as [|e p l l' (Hid & Hp & Hb) HF']; subst.
    cbn [nearest_loop nearest_step fold_left]. cbn [snd fst] in Hid, Hp.
    rewrite Hp. cbn [fst].
    pose proof (dist_sq_range t (snd p) Ht Hb) as Hd.
    assert (Hcmp : Float64.ltb (Float64.sqrt_int (dist_sq t (snd p))) (as_float m)
                   = match m with None => true | Some m' => dist_sq t (snd p) <? m' end).
    { destruct m as [m'|]; cbn [as_float].
      - apply Float64Facts.sqrt_ltb; assumption.
      - apply Float64Facts.sqrt_ltb_inf; assumption. }
    rewrite Hcmp. unfold sq_step at 2 4. cbn [fst snd].
    destruct m as [m'|].
    + destruct (dist_sq t (snd p) <? m').
      * rewrite <- Hid. apply (IH l' (Some (dist_sq t (snd p)))); assumption.
      * apply IH; assumption.
    + rewrite <- Hid. apply (IH l' (Some (dist_sq t (snd p)))); assumption.
Qed.


Lemma sq_step_best (t : rgb) (seen : list (string * rgb)) st e :
  best_of t seen st -> best_of t (seen ++ [e])%list (sq_step t st e).
Proof.
  destruct st as [[m|] best], e as [cid q]; unfold best_of, sq_step; cbn [fst snd].
  - intros (pre & p & post & -> & -> & Hpre & Hpost).
    destruct (Z.ltb_spec (dist_sq t q) (dist_sq t p)) as [L|G]; cbn [fst snd].
    + exists (pre ++ (best, p) :: post)%list, q, []. repeat split.
      * apply Forall_app. split.
        -- eapply Forall_impl; [|exact Hpre]. cbn. intros; lia.
        -- constructor; [cbn; lia|].
           eapply Forall_impl; [|exact Hpost]. cbn. intros; lia.
      * constructor.
    + exists pre, p, (post ++ [(cid, q)])%list. repeat split.
      * rewrite <- app_assoc. reflexivity.
      * exact Hpre.
      * apply Forall_app. split; [exact Hpost|]. constructor; [cbn; lia|constructor].
  - intros [-> _]. exists [], q, []. repeat split; constructor.
Qed.

Lemma sq_loop_best (t : rgb) :
  forall ps seen st,
    best_of t seen st -> best_of t (seen ++ ps)%list (fold_left (sq_step t) ps st).
Proof.
  induction ps as [|e ps IH]; intros seen st H.
  - rewrite app_nil_r. exact H.
  - cbn [fold_left].
    replace (seen ++ e :: ps)%list with ((seen ++ [e]) ++ ps)%list
      by (rewrite <- app_assoc; reflexivity).
    apply IH, sq_step_best, H.
Qed.

Lemma sqrt_IZR_lt (a b : Z) :
  0 <= a -> a < b -> (R_sqrt.sqrt (IZR a) < R_sqrt.sqrt (IZR b))%R.
Proof.
  intros Ha Hab. apply sqrt_lt_1_alt. split.
  - apply IZR_le. exact Ha.
  - apply IZR_lt. exact Hab.
Qed.

Lemma sqrt_IZR_le (a b : Z) :
  a <= b -> (R_sqrt.sqrt (IZR a) <= R_sqrt.sqrt (IZR b))%R.
Proof. intros Hab. apply sqrt_le_1_alt, IZR_le, Hab. Qed.

Lemma dist_sq_nonneg (p q : rgb) : 0 <= dist_sq p q.
Proof.
  destruct p as [[r1 g1] b1], q as [[r2 g2] b2]. unfold dist_sq.
  assert (E : Z.Even 2) by (exists 1; reflexivity).
  pose proof (Z.pow_even_nonneg (r1 - r2) 2 E).
  pose proof (Z.pow_even_nonneg (g1 - g2) 2 E).
  pose proof (Z.pow_even_nonneg (b1 - b2) 2 E). lia.
Qed.

Lemma palette_link :
  Forall2 (fun e p => fst e = fst p /\ hex_to_rgb (snd e) = Some (snd p)
                      /\ byte_rgb (snd p)) COLOR_HEX_MAP palette_rgb.
Proof.
  rewrite palette_rgb_eq. unfold COLOR_HEX_MAP.
  repeat (constructor; [split; [reflexivity|split; [reflexivity|cbn; lia]]|]).
  constructor.
Qed.

(** The resolver on a colour with byte channels. *)
Lemma nearest_of_rgb (inp : string) (t : rgb) :
  hex_to_rgb inp = Some t -> byte_rgb t ->
  exists cid p pre post,
    get_nearest_color_id inp = Some cid /\
    palette_rgb = (pre ++ (cid, p) :: post)%list /\
    Forall (fun e => dist_sq t p < dist_sq t (snd e)) pre /\
    Forall (fun e => dist_sq t p <= dist_sq t (snd e)) post.
Proof.
  intros Hp Ht. unfold get_nearest_color_id. rewrite Hp.
  change Float64.inf with (as_float None).
  rewrite (nearest_loop_sq t Ht _ _ None "1" palette_link I). cbn [option_map snd].
  pose proof (sq_loop_best t palette_rgb [] (None, "1")) as H.
  cbn [app] in H. specialize (H (conj eq_refl eq_refl)).
  destruct (fold_left (sq_step t) palette_rgb (None, "1")) as [[m|] best];
    unfold best_of in H; cbn [fst snd] in H.
  - destruct H as (pre & p & post & E & _ & Hpre & Hpost).
    exists best, p, pre, post. repeat split; assumption.
  - destruct H as [E _]. rewrite palette_rgb_eq in E. discriminate E.
Qed.


(** ** The monad *)

Ltac mstep := cbn [bind emit lift ret raise fst snd List.app].

Lemma bind_ok {A B} (t : list event) (a : A) (f : A -> M B) :
  bind (t, Ok a) f = ((t ++ fst (f a))%list, snd (f a)).
Proof. cbn. destruct (f a). reflexivity. Qed.

Lemma bind_raise {A B} (t : list event) (e : exn) (f : A -> M B) :
  bind (t, Raise e) f = (t, Raise e).
Proof. reflexivity. Qed.

Lemma bind_fst_ok {A B} (m : M A) (f : A -> M B) (a : A) :
  snd m = Ok a -> bind m f = ((fst m ++ fst (f a))%list, snd (f a)).
Proof. destruct m as [t o]. cbn [snd fst]. intros ->. apply bind_ok. Qed.

Lemma bind_fst_raise {A B} (m : M A) (f : A -> M B) (e : exn) :
  snd m = Raise e -> bind m f = (fst m, Raise e).
Proof. destruct m as [t o]. cbn [snd fst]. intros ->. reflexivity. Qed.

Lemma bind_lift_ok {A B} (a : A) (f : A -> M B) : bind (lift (Ok a)) f = f a.
Proof. cbn. destruct (f a). reflexivity. Qed.

Lemma bind_lift_raise {A B} (e : exn) (f : A -> M B) :
  bind (lift (Raise e)) f = ([], Raise e).
Proof. reflexivity. Qed.

Lemma pair_fst_snd {A B} (p : A * B) : (fst p, snd p) = p.
Proof. destruct p. reflexivity. Qed.

Lemma not_in_quiet (P : event -> bool) (l : list event) (e : event) :
  existsb P l = false -> P e = true -> ~ In e l.
Proof.
  intros Hq He Hin.
  assert (existsb P l = true) by (apply existsb_exists; exists e; split; assumption).
  congruence.
Qed.

(** ** Traces of the stages *)

Lemma transcribe_quiet (w : world) (rq : request) :
  existsb downstream_call (fst (transcribe w rq)) = false.
Proof.
  unfold transcribe.
  destruct (negb (py_in (content_type rq) WAV_TYPES)).
  - destruct (transcode_to_wav w (upload rq)) as [wav|e]; cbn; [|reflexivity].
    destruct (record_audio w wav); reflexivity.
  - cbn. destruct (record_audio w (upload rq)); reflexivity.
Qed.

Lemma get_access_token_trace (w : world) :
  fst (get_access_token w) = [EvTokenRequest].
Proof.
  unfold get_access_token, raise_for_status.
  destruct (token_endpoint w) as [r|e]; cbn; [|reflexivity].
  destruct ((400 <=? status_code r) && (status_code r <? 600)); cbn; [reflexivity|].
  destruct (json_body r) as [b|e]; cbn; [|reflexivity].
  destruct (py_get b "access_token"); reflexivity.
Qed.

Section PipelineFacts.

Variable json_loads : string -> option json.
Variable fromisoformat : string -> outcome datetime.
Variable ny_utcoffset : datetime -> Z.

Local Abbreviation process := (process_audio json_loads fromisoformat ny_utcoffset).
Local Abbreviation prompt_of w text := (prompt_for (Fmt.strftime_Ymd (now w)) text).

Lemma call_gpt_answer (w : world) (text raw : string) :
  chat_completion w (prompt_of w text) = Ok (Some raw) ->
  call_gpt json_loads w text =
  ([EvChatCompletion (prompt_of w text); EvPrint ("GPT response: " ++ strip_fence raw)],
   match json_loads raw with
   | Some v => Ok v
   | None => Raise JSONDecodeError
   end).
Proof.
  intros H. unfold call_gpt. rewrite H. mstep.
  destruct (json_loads raw); reflexivity.
Qed.

Lemma call_gpt_trace (w : world) (text : string) :
  existsb calendar_call (fst (call_gpt json_loads w text)) = false.
Proof.
  unfold call_gpt.
  destruct (chat_completion w (prompt_of w text)) as [[raw|]|e]; mstep;
    try reflexivity.
  destruct (json_loads raw); reflexivity.
Qed.

(** The handler once the guards have passed and the recogniser has
    returned a text. *)
Lemma process_heard (w : world) (rq : request) (tr : list event) (text : string) :
  authorization rq = AUTH_PASSWORD w ->
  py_in (content_type rq) ALLOWED_TYPES = true ->
  transcribe w rq = (tr, Ok (Ok text)) ->
  process w rq =
  ((tr ++ fst (after_transcription json_loads fromisoformat ny_utcoffset w text))%list,
   snd (after_transcription json_loads fromisoformat ny_utcoffset w text)).
Proof.
  intros Ha Hc Ht. unfold process_audio.
  rewrite Ha, String.eqb_refl, Hc. cbn [negb]. rewrite Ht.
  rewrite bind_ok. reflexivity.
Qed.

(** [add_event], case by case. *)
Lemma add_event_cases (w : world) (tok summary color : json) (start : datetime) :
  add_event ny_utcoffset w tok summary color start =
  match tzinfo start with
  | Some _ => ([], Raise ValueError)
  | None =>
      match py_get_nearest_color_id (py_or color (JStr "#008080")) with
      | Raise e => ([], Raise e)
      | Ok cid =>
          let p := payload_of ny_utcoffset summary cid start in
          ([EvCreateEvent tok p],
           match events_endpoint w tok p with
           | Raise e => Raise e
           | Ok r =>
               if (400 <=? status_code r) && (status_code r <? 600)
               then Raise (HTTPError (status_code r))
               else json_body r
           end)
      end
  end.
Proof.
  unfold add_event, localize.
  destruct (tzinfo start) as [off|]; [reflexivity|]. mstep.
  destruct (py_get_nearest_color_id (py_or color (JStr "#008080"))) as [cid|e];
    [|reflexivity].
  mstep. unfold payload_of, with_offset. cbv zeta.
  match goal with |- context [events_endpoint w tok ?p] =>
    destruct (events_endpoint w tok p) as [r|e] end; [|reflexivity].
  mstep. unfold raise_for_status.
  destruct ((400 <=? status_code r) && (status_code r <? 600)); mstep;
    [reflexivity|].
  destruct (json_body r); reflexivity.
Qed.

(** The stage after transcription when the extractor's answer decodes
    to a [dict]. *)
Lemma after_transcription_dict (w : world) (text raw : string)
    (d : list (string * json)) :
  chat_completion w (prompt_of w text) = Ok (Some raw) ->
  json_loads raw = Some (JObj d) ->
  after_transcription json_loads fromisoformat ny_utcoffset w text =
  let said := [EvChatCompletion (prompt_of w text);
               EvPrint ("GPT response: " ++ strip_fence raw)] in
  if negb (truthy (field d "datetime"))
  then (said, Ok (RespError text "Invalid or past datetime in input"))
  else
    match snd (get_access_token w) with
    | Raise e => ((said ++ [EvTokenRequest])%list, Raise e)
    | Ok tok =>
        match py_fromisoformat fromisoformat (field d "datetime") with
        | Raise e => ((said ++ [EvTokenRequest])%list, Raise e)
        | Ok start =>
            let r := add_event ny_utcoffset w tok
                       (py_or (field d "title") (JStr "No Title"))
                       (py_or (field d "color") (JStr "#008080")) start in
            ((said ++ EvTokenRequest :: fst r)%list,
             match snd r with
             | Ok event_result => Ok (RespEvent text (JObj d) event_result)
             | Raise e => Raise e
             end)
        end
    end.
Proof.
  intros Hchat Hj. unfold after_transcription.
  rewrite (call_gpt_answer _ _ _ Hchat), Hj. rewrite bind_ok.
  cbn [py_get]. rewrite bind_lift_ok. fold (field d "datetime").
  cbv zeta.
  destruct (negb (truthy (field d "datetime"))); [reflexivity|].
  pose proof (get_access_token_trace w) as Ht.
  destruct (get_access_token w) as [tt [tok|e]]; cbn [fst snd] in *; subst tt.
  - rewrite bind_ok, !bind_lift_ok.
    fold (field d "title"). fold (field d "color").
    destruct (py_fromisoformat fromisoformat (field d "datetime")) as [start|e].
    + rewrite bind_lift_ok.
      destruct (add_event ny_utcoffset w tok _ _ start) as [ta [res|e]];
        cbn [bind ret fst snd List.app]; rewrite ?app_nil_r; reflexivity.
    + rewrite bind_lift_raise. reflexivity.
  - reflexivity.
Qed.

Lemma py_or_default_twice (c dflt : json) :
  truthy dflt = true -> py_or (py_or c dflt) dflt = py_or c dflt.
Proof.
  intros Hd. unfold py_or. destruct (truthy c) eqn:Hc.
  - rewrite Hc. reflexivity.
  - rewrite Hd. reflexivity.
Qed.

(** A truthy value that [fromisoformat] accepts is a non-empty string. *)
Lemma py_fromisoformat_ok (v : json) (start : datetime) :
  truthy v = true -> py_fromisoformat fromisoformat v = Ok start ->
  exists s, v = JStr s /\ s <> EmptyString /\ fromisoformat s = Ok start.
Proof.
  destruct v as [| | | |s| |]; cbn [py_fromisoformat]; try discriminate.
  intros Ht H. exists s. repeat split; [|exact H].
  intros ->. discriminate Ht.
Qed.

(** Every event creation comes from a complete run of the stages. *)
Lemma process_create_inv (w : world) (rq : request) (tok : json) (p : calendar_event) :
  In (EvCreateEvent tok p) (fst (process w rq)) ->
  exists tr text raw d s start cid,
    authorization rq = AUTH_PASSWORD w /\
    py_in (content_type rq) ALLOWED_TYPES = true /\
    transcribe w rq = (tr, Ok (Ok text)) /\
    chat_completion w (prompt_of w text) = Ok (Some raw) /\
    json_loads raw = Some (JObj d) /\
    field d "datetime" = JStr s /\ s <> EmptyString /\
    fromisoformat s = Ok start /\ tzinfo start = None /\
    snd (get_access_token w) = Ok tok /\
    py_get_nearest_color_id (py_or (field d "color") (JStr "#008080")) = Ok cid /\
    p = payload_of ny_utcoffset (py_or (field d "title") (JStr "No Title")) cid start.
Proof.
  intros H. unfold process_audio in H.
  destruct (String.eqb_spec (authorization rq) (AUTH_PASSWORD w)) as [Ha|Ha];
    cbn [negb] in H; [|destruct H].
  destruct (py_in (content_type rq) ALLOWED_TYPES) eqn:Hc;
    cbn [negb] in H; [|destruct H].
  pose proof (transcribe_quiet w rq) as Hq.
  assert (Hno : forall l, existsb downstream_call l = false ->
                          ~ In (EvCreateEvent tok p) l).
  { intros l Hl. apply (not_in_quiet _ _ _ Hl). reflexivity. }
  destruct (transcribe w rq) as [tr [[text|e]|e]] eqn:Ht; cbn [fst] in Hq.
  - rewrite bind_ok in H. cbn [fst] in H.
    apply in_app_or in H as [H|H]; [destruct (Hno _ Hq H)|].
    destruct (chat_completion w (prompt_of w text)) as [[raw|]|e] eqn:Hchat.
    + destruct (json_loads raw) as [v|] eqn:Hj.
      * assert (Hd : (exists d, v = JObj d) \/ py_get v "datetime" = Raise AttributeError)
          by (destruct v; (left; eexists; reflexivity) || (right; reflexivity)).
        destruct Hd as [[d ->]|Hd].
        -- rewrite (after_transcription_dict _ _ _ _ Hchat Hj) in H. cbv zeta in H.
           destruct (truthy (field d "datetime")) eqn:Htr; cbn [negb] in H.
           2:{ cbn in H. destruct H as [H|[H|[]]]; discriminate H. }
           destruct (snd (get_access_token w)) as [tok0|e] eqn:Hg.
           2:{ cbn in H. destruct H as [H|[H|[H|[]]]]; discriminate H. }
           destruct (py_fromisoformat fromisoformat (field d "datetime"))
             as [start|e] eqn:Hf.
           2:{ cbn in H. destruct H as [H|[H|[H|[]]]]; discriminate H. }
           destruct (py_fromisoformat_ok _ _ Htr Hf) as (s & Hs & Hne & Hfs).
           rewrite add_event_cases in H.
           rewrite py_or_default_twice in H by reflexivity.
           destruct (tzinfo start) as [off|] eqn:Htz.
           { cbn in H. destruct H as [H|[H|[H|[]]]]; discriminate H. }
           destruct (py_get_nearest_color_id (py_or (field d "color") (JStr "#008080")))
             as [cid|e] eqn:Hcol.
           2:{ cbn in H. destruct H as [H|[H|[H|[]]]]; discriminate H. }
           cbn [fst List.app] in H.
           destruct H as [H|[H|[H|[H|[]]]]]; try discriminate H.
           injection H as <- <-.
           exists tr, text, raw, d, s, start, cid.
           repeat split; try assumption; reflexivity.
        -- unfold after_transcription in H.
           rewrite (call_gpt_answer _ _ _ Hchat), Hj, bind_ok, Hd, bind_lift_raise in H.
           cbn in H. destruct H as [H|[H|[]]]; discriminate H.
      * unfold after_transcription in H.
        rewrite (call_gpt_answer _ _ _ Hchat), Hj in H.
        cbn in H. destruct H as [H|[H|[]]]; discriminate H.
    + unfold after_transcription, call_gpt in H. rewrite Hchat in H.
      cbn in H. destruct H as [H|[]]; discriminate H.
    + unfold after_transcription, call_gpt in H. rewrite Hchat in H.
      cbn in H. destruct H as [H|[]]; discriminate H.
  - rewrite bind_ok in H.
    assert (E : In (EvCreateEvent tok p) tr).
    { destruct e; cbn in H; rewrite app_nil_r in H; exact H. }
    destruct (Hno _ Hq E).
  - cbn in H. destruct (Hno _ Hq H).
Qed.

End PipelineFacts.


(** ** Splitting and joining lines *)

Lemma split_nonempty (sep : ascii) (s : string) : PyStr.split sep s <> [].
Proof.
  destruct s as [|a s]; cbn [PyStr.split]; [discriminate|].
  destruct (Ascii.eqb a sep); [discriminate|].
  destruct (PyStr.split sep s); discriminate.
Qed.

Lemma split_app (sep : ascii) (a b : string) :
  PyStr.split sep (a ++ String sep b) = (PyStr.split sep a ++ PyStr.split sep b)%list.
Proof.
  induction a as [|c a IH]; cbn [append PyStr.split].
  - rewrite Ascii.eqb_refl. reflexivity.
  - destruct (Ascii.eqb c sep).
    + rewrite IH. reflexivity.
    + rewrite IH. pose proof (split_nonempty sep a) as Hn.
      destruct (PyStr.split sep a) as [|h t]; [contradiction|reflexivity].
Qed.

Lemma split_no_newline (s : string) :
  no_newline s = true -> PyStr.split (ascii_of_nat 10) s = [s].
Proof.
  unfold no_newline. induction s as [|c s IH]; cbn [list_ascii_of_string forallb PyStr.split].
  - reflexivity.
  - intros H. apply andb_prop in H as [Hc Hs].
    apply negb_true_iff in Hc. rewrite Hc, (IH Hs). reflexivity.
Qed.

Lemma join_split (s : string) :
  PyStr.join nl (PyStr.split (ascii_of_nat 10) s) = s.
Proof.
  unfold PyStr.join.
  induction s as [|c s IH]; cbn [PyStr.split]; [reflexivity|].
  pose proof (split_nonempty (ascii_of_nat 10) s) as Hn.
  destruct (Ascii.eqb_spec c (ascii_of_nat 10)) as [->|Hc].
  - destruct (PyStr.split (ascii_of_nat 10) s) as [|h t] eqn:E; [contradiction|].
    cbn [concat]. cbn [concat] in IH. rewrite IH. reflexivity.
  - destruct (PyStr.split (ascii_of_nat 10) s) as [|h t] eqn:E; [contradiction|].
    cbn [concat] in *. destruct t as [|h' t].
    + rewrite IH. reflexivity.
    + cbn [append]. rewrite IH. reflexivity.
Qed.

Lemma no_newline_app (a b : string) :
  no_newline a = true -> no_newline b = true -> no_newline (a ++ b) = true.
Proof.
  unfold no_newline. induction a as [|c a IH]; cbn [append list_ascii_of_string forallb].
  - intros _ H. exact H.
  - intros H Hb. apply andb_prop in H as [Hc Ha]. rewrite Hc. cbn. apply IH; assumption.
Qed.

Lemma append_assoc (a b c : string) : (a ++ b) ++ c = a ++ b ++ c.
Proof. induction a as [|x a IH]; cbn [append]; [reflexivity|rewrite IH; reflexivity]. Qed.

Lemma prefix_append (p s : string) : prefix p (p ++ s) = true.
Proof.
  induction p as [|a p IH]; cbn [append].
  - destruct s; reflexivity.
  - cbn [prefix]. destruct (ascii_dec a a) as [_|N]; [exact IH|contradiction].
Qed.

(** The text printed for a fenced answer is its body. *)
Lemma strip_fence_fenced (lang body : string) :
  no_newline lang = true -> strip_fence (fenced lang body) = body.
Proof.
  intros Hl. unfold strip_fence, fenced.
  unfold PyStr.startswith. rewrite prefix_append.
  unfold nl at 2 3.
  replace ("```" ++ lang ++ String (ascii_of_nat 10) EmptyString ++ body
           ++ String (ascii_of_nat 10) EmptyString ++ "```")
    with (("```" ++ lang) ++ String (ascii_of_nat 10)
            (body ++ String (ascii_of_nat 10) "```")).
  2:{ rewrite append_assoc. reflexivity. }
  rewrite !split_app.
  rewrite (split_no_newline ("```" ++ lang)) by (apply no_newline_app; [reflexivity|exact Hl]).
  rewrite (split_no_newline "```") by reflexivity.
  unfold PyStr.slice_1_m1. cbn [List.app tl].
  rewrite removelast_last. apply join_split.
Qed.

Lemma calendar_is_downstream (l : list event) :
  existsb downstream_call l = false -> existsb calendar_call l = false.
Proof.
  induction l as [|e l IH]; cbn [existsb]; [reflexivity|].
  intros H. apply orb_false_iff in H as [He Hl].
  rewrite (IH Hl). destruct e; try discriminate He; reflexivity.
Qed.

Lemma creation_is_downstream (l : list event) :
  existsb downstream_call l = false -> existsb creates_event l = false.
Proof.
  induction l as [|e l IH]; cbn [existsb]; [reflexivity|].
  intros H. apply orb_false_iff in H as [He Hl].
  rewrite (IH Hl). destruct e; try discriminate He; reflexivity.
Qed.

Lemma sqrt_dist_lt (t p q : rgb) :
  dist_sq t p < dist_sq t q -> (euclid t p < euclid t q)%R.
Proof. intros H. apply sqrt_IZR_lt; [apply dist_sq_nonneg|exact H]. Qed.

Lemma sqrt_dist_le (t p q : rgb) :
  dist_sq t p <= dist_sq t q -> (euclid t p <= euclid t q)%R.
Proof. intros H. apply sqrt_IZR_le, H. Qed.

(* ================================================================= *)
(** ** Colour resolver *)

(** ** The code against the specification's wording *)

Lemma spec_hex_value_digit (c : ascii) (v : Z) :
  spec_hex_value c = Some v -> PyStr.hex_digit c = Some v.
Proof.
  destruct c as [[] [] [] [] [] [] [] []]; vm_compute; intros H;
    try discriminate H; exact H.
Qed.

(** On six hexadecimal digits, with or without [#], [hex_to_rgb] is
    the triple the specification speaks of. *)
Lemma spec_rgb_parse (s : string) (t : rgb) :
  spec_rgb s = Some t ->
  hex_to_rgb s = Some t /\ hex_to_rgb ("#" ++ s) = Some t /\ byte_rgb t.
Proof.
  unfold spec_rgb.
  destruct s as [|c1 [|c2 [|c3 [|c4 [|c5 [|c6 [|c7 s]]]]]]]; try discriminate.
  destruct (spec_hex_value c1) as [v1|] eqn:E1; [|discriminate].
  destruct (spec_hex_value c2) as [v2|] eqn:E2; [|discriminate].
  destruct (spec_hex_value c3) as [v3|] eqn:E3; [|discriminate].
  destruct (spec_hex_value c4) as [v4|] eqn:E4; [|discriminate].
  destruct (spec_hex_value c5) as [v5|] eqn:E5; [|discriminate].
  destruct (spec_hex_value c6) as [v6|] eqn:E6; [|discriminate].
  intros H. injection H as <-.
  apply spec_hex_value_digit in E1, E2, E3, E4, E5, E6.
  destruct (hex_digit_char _ _ E1) as (B1 & _ & N1 & _).
  destruct (hex_digit_char _ _ E2) as (B2 & _).
  destruct (hex_digit_char _ _ E3) as (B3 & _).
  destruct (hex_digit_char _ _ E4) as (B4 & _).
  destruct (hex_digit_char _ _ E5) as (B5 & _).
  destruct (hex_digit_char _ _ E6) as (B6 & _).
  assert (P : hex_to_rgb (String c1 (String c2 (String c3 (String c4 (String c5
                (String c6 EmptyString))))))
              = Some (16 * v1 + v2, 16 * v3 + v4, 16 * v5 + v6)).
  { unfold hex_to_rgb. cbn [PyStr.lstrip]. rewrite N1.
    cbn [PyStr.slice substring].
    rewrite (int16_pair _ _ _ _ E1 E2), (int16_pair _ _ _ _ E3 E4),
      (int16_pair _ _ _ _ E5 E6).
    rewrite (Z.mul_comm v1), (Z.mul_comm v3), (Z.mul_comm v5). reflexivity. }
  split; [exact P|]. split.
  - unfold hex_to_rgb. cbn [append]. rewrite lstrip_hash. exact P.
  - change (0 <= 16 * v1 + v2 <= 255 /\ 0 <= 16 * v3 + v4 <= 255
            /\ 0 <= 16 * v5 + v6 <= 255). lia.
Qed.

Lemma spec_distance_euclid (p q : rgb) : spec_distance p q = euclid p q.
Proof.
  destruct p as [[r1 g1] b1], q as [[r2 g2] b2].
  unfold spec_distance, euclid, dist_sq. f_equal.
  rewrite !plus_IZR, !Z.pow_2_r, !mult_IZR, !minus_IZR. ring.
Qed.

Lemma spec_palette_parsed : palette_rgb = SPEC_PALETTE.
Proof. exact palette_rgb_eq. Qed.

(** C2. For six hexadecimal digits, with or without a leading [#],
    whose (R, G, B) triple is [target], the resolver returns the
    identifier [cid] of a palette entry whose Euclidean distance to
    [target] is minimal among the 11 palette colours, and the first
    such entry in palette order: every earlier entry is strictly
    farther, every later one at least as far. The identifier is one of
    the 11 slot identifiers. Triple, palette and distance are those of
    the specification's wording, not of the embedding; the result is
    a function of the input. *)
Theorem C2_nearest_palette_entry (s inp : string) (target : rgb) :
  spec_rgb s = Some target ->
  inp = s \/ inp = "#" ++ s ->
  exists (cid : string) (p : rgb) (pre post : list (string * rgb)),
    get_nearest_color_id inp = Some cid /\
    SPEC_PALETTE = (pre ++ (cid, p) :: post)%list /\
    Forall (fun e => (spec_distance target p < spec_distance target (snd e))%R) pre /\
    Forall (fun e => (spec_distance target p <= spec_distance target (snd e))%R) post /\
    In cid ["1"; "2"; "3"; "4"; "5"; "6"; "7"; "8"; "9"; "10"; "11"].
Proof.
  intros Hs Hinp.
  destruct (spec_rgb_parse s target Hs) as (H1 & H2 & Hb).
  assert (Ht : hex_to_rgb inp = Some target) by (destruct Hinp as [->| ->]; assumption).
  destruct (nearest_of_rgb inp target Ht Hb)
    as (cid & p & pre & post & Hn & Hpal & Hpre & Hpost).
  rewrite spec_palette_parsed in Hpal.
  exists cid, p, pre, post. repeat split; try assumption.
  - eapply Forall_impl; [|exact Hpre]. intros e He.
    rewrite !spec_distance_euclid. apply sqrt_dist_lt, He.
  - eapply Forall_impl; [|exact Hpost]. intros e He.
    rewrite !spec_distance_euclid. apply sqrt_dist_le, He.
  - change ["1"; "2"; "3"; "4"; "5"; "6"; "7"; "8"; "9"; "10"; "11"]
      with (map fst SPEC_PALETTE).
    rewrite Hpal, map_app. apply in_or_app. right. left. reflexivity.
Qed.

Lemma C2_nearest_palette_entry_witness :
  spec_rgb "0000ff" = Some (0, 0, 255) /\
  get_nearest_color_id "#0000ff" = Some "9" /\
  exists (p : rgb) (pre post : list (string * rgb)),
    SPEC_PALETTE = (pre ++ ("9", p) :: post)%list /\
    Forall (fun e => (spec_distance (0, 0, 255)%Z p
                      < spec_distance (0, 0, 255)%Z (snd e))%R) pre /\
    Forall (fun e => (spec_distance (0, 0, 255)%Z p
                      <= spec_distance (0, 0, 255)%Z (snd e))%R) post.
Proof.
  destruct (C2_nearest_palette_entry "0000ff" "#0000ff" (0, 0, 255))
    as (cid & p & pre & post & Hn & Hpal & Hpre & Hpost & _).
  - reflexivity.
  - right. reflexivity.
  - assert (E : Some cid = Some "9").
    { rewrite <- Hn. vm_compute. reflexivity. }
    injection E as ->.
    split; [reflexivity|]. split; [exact Hn|].
    exists p, pre, post. repeat split; assumption.
Defined.

(** C4. A null or empty colour resolves to the same slot as the
    default ["#008080"], in the resolver with its default and in the
    event builder. *)
Theorem C4_default_colour :
  resolve None = resolve (Some "#008080") /\
  resolve (Some EmptyString) = resolve (Some "#008080") /\
  resolve (Some "#008080") = Ok "10" /\
  forall (off : datetime -> Z) (w : world) (tok summary : json) (start : datetime),
    add_event off w tok summary JNull start
      = add_event off w tok summary (JStr "#008080") start /\
    add_event off w tok summary (JStr EmptyString) start
      = add_event off w tok summary (JStr "#008080") start.
Proof.
  split; [reflexivity|]. split; [reflexivity|].
  split; [vm_compute; reflexivity|].
  intros off w tok summary start. split; reflexivity.
Qed.

(* ================================================================= *)
(** ** The request handler *)

Section HandlerFacts.

Variable json_loads : string -> option json.
Variable fromisoformat : string -> outcome datetime.
Variable ny_utcoffset : datetime -> Z.

Local Abbreviation process := (process_audio json_loads fromisoformat ny_utcoffset).
Local Abbreviation prompt_of w text := (prompt_for (Fmt.strftime_Ymd (now w)) text).

(** C7. A request whose [Authorization] header differs from the secret
    is answered 401 with no call made, whatever its content type; an
    authorised request whose content type is outside the allow-list
    is answered 400 with no call made. *)
Theorem C7_rejected_before_any_call (w : world) (rq : request) :
  (authorization rq <> AUTH_PASSWORD w ->
     process w rq = ([], Raise (HTTPException 401 "Unauthorized")) /\
     http_status (snd (process w rq)) = 401) /\
  (authorization rq = AUTH_PASSWORD w ->
   py_in (content_type rq)
     ["audio/wav"; "audio/x-wav"; "audio/flac"; "audio/mpeg"; "audio/mp3"] = false ->
     process w rq = ([], Raise (HTTPException 400 "Unsupported file type")) /\
     http_status (snd (process w rq)) = 400).
Proof.
  split.
  - intros Ha. apply String.eqb_neq in Ha.
    unfold process_audio. rewrite Ha. split; reflexivity.
  - intros Ha Hc. unfold process_audio.
    rewrite Ha, String.eqb_refl. cbn [negb].
    change ALLOWED_TYPES
      with ["audio/wav"; "audio/x-wav"; "audio/flac"; "audio/mpeg"; "audio/mp3"].
    rewrite Hc. split; reflexivity.
Qed.


(** C3. When the extractor's answer has a null or absent [datetime],
    the handler returns normally (status 200) with the transcript and
    the error text ["Invalid or past datetime in input"], which names
    the invalid-or-past-datetime outcome; no token is requested and
    no event is created, whatever the other fields of the answer. *)
Theorem C3_null_datetime_short_circuits (w : world) (rq : request)
    (tr : list event) (text raw : string) (d : list (string * json)) :
  authorization rq = AUTH_PASSWORD w ->
  py_in (content_type rq) ALLOWED_TYPES = true ->
  transcribe w rq = (tr, Ok (Ok text)) ->
  chat_completion w (prompt_of w text) = Ok (Some raw) ->
  json_loads raw = Some (JObj d) ->
  dict_get d "datetime" = None \/ dict_get d "datetime" = Some JNull ->
  exists msg,
    process w rq =
      ((tr ++ [EvChatCompletion (prompt_of w text);
               EvPrint ("GPT response: " ++ strip_fence raw)])%list,
       Ok (RespError text msg)) /\
    msg = "Invalid or past datetime in input" /\
    prefix "invalid or past datetime" (lower msg) = true /\
    http_status (snd (process w rq)) = 200 /\
    existsb calendar_call (fst (process w rq)) = false.
Proof.
  intros Ha Hc Ht Hchat Hj Hd.
  assert (Hf : truthy (field d "datetime") = false)
    by (unfold field; destruct Hd as [-> | ->]; reflexivity).
  pose proof (transcribe_quiet w rq) as Hq. rewrite Ht in Hq. cbn [fst] in Hq.
  rewrite (process_heard _ _ _ w rq tr text Ha Hc Ht).
  rewrite (after_transcription_dict _ _ _ w text raw d Hchat Hj).
  cbv zeta. rewrite Hf. cbn [negb fst snd].
  exists "Invalid or past datetime in input".
  split; [reflexivity|]. split; [reflexivity|]. split; [reflexivity|].
  split; [reflexivity|].
  rewrite existsb_app, (calendar_is_downstream _ Hq). reflexivity.
Qed.

(** C1, as the code has it. The handler answers with the soft outcome
    exactly when the extracted datetime is falsy (null, absent, empty):
    then no token is requested and no event created. A truthy datetime
    is never compared with the clock, wherever [now w] lies: the token
    is requested and the request ends in a success body or in an
    exception, never in a body with an error field. When it is a
    non-empty string that parses to a naive datetime, the token is
    obtained and the colour resolves, an event is created whose start
    is that wall-clock time with the zone's offset. *)
Theorem C1_only_falsy_datetime_rejected (w : world) (rq : request)
    (tr : list event) (text raw : string) (d : list (string * json)) :
  authorization rq = AUTH_PASSWORD w ->
  py_in (content_type rq) ALLOWED_TYPES = true ->
  transcribe w rq = (tr, Ok (Ok text)) ->
  chat_completion w (prompt_of w text) = Ok (Some raw) ->
  json_loads raw = Some (JObj d) ->
  (truthy (field d "datetime") = false ->
     snd (process w rq) = Ok (RespError text "Invalid or past datetime in input") /\
     existsb calendar_call (fst (process w rq)) = false) /\
  (truthy (field d "datetime") = true ->
     (forall t err, snd (process w rq) <> Ok (RespError t err)) /\
     In EvTokenRequest (fst (process w rq)) /\
     ((exists e, snd (process w rq) = Raise e) \/
      (exists created, snd (process w rq) = Ok (RespEvent text (JObj d) created)))) /\
  (forall (s : string) (start : datetime) (tok : json) (cid : string),
     field d "datetime" = JStr s -> s <> EmptyString ->
     fromisoformat s = Ok start -> tzinfo start = None ->
     snd (get_access_token w) = Ok tok ->
     py_get_nearest_color_id (py_or (field d "color") (JStr "#008080")) = Ok cid ->
     fst (process w rq) =
       (tr ++ [EvChatCompletion (prompt_of w text);
               EvPrint ("GPT response: " ++ strip_fence raw);
               EvTokenRequest;
               EvCreateEvent tok
                 (payload_of ny_utcoffset
                    (py_or (field d "title") (JStr "No Title")) cid start)])%list /\
     snd (process w rq) <> Ok (RespError text "Invalid or past datetime in input")).
Proof.
  intros Ha Hc Ht Hchat Hj.
  pose proof (transcribe_quiet w rq) as Hq. rewrite Ht in Hq. cbn [fst] in Hq.
  rewrite (process_heard _ _ _ w rq tr text Ha Hc Ht).
  rewrite (after_transcription_dict _ _ _ w text raw d Hchat Hj).
  cbv zeta. split; [|split].
  - intros Hf. rewrite Hf. cbn [negb fst snd]. split; [reflexivity|].
    rewrite existsb_app, (calendar_is_downstream _ Hq). reflexivity.
  - intros Htr. rewrite Htr. cbn [negb].
    assert (Hin : forall l, In EvTokenRequest
                    (tr ++ [EvChatCompletion (prompt_of w text);
                            EvPrint ("GPT response: " ++ strip_fence raw)]
                        ++ EvTokenRequest :: l)%list).
    { intros l. apply in_or_app. right. apply in_or_app. right. left. reflexivity. }
    destruct (snd (get_access_token w)) as [tok|e]; cbn [fst snd].
    + destruct (py_fromisoformat fromisoformat (field d "datetime")) as [start|e];
        cbn [fst snd].
      * split; [|split; [apply Hin|]].
        -- intros t err.
           destruct (snd (add_event ny_utcoffset w tok _ _ start)); discriminate.
        -- destruct (snd (add_event ny_utcoffset w tok _ _ start)) as [created|e].
           ++ right. exists created. reflexivity.
           ++ left. exists e. reflexivity.
      * split; [discriminate|]. split; [apply Hin|]. left. exists e. reflexivity.
    + split; [discriminate|]. split; [apply Hin|]. left. exists e. reflexivity.
  - intros s start tok cid Hs Hne Hfs Htz Hg Hcol.
    assert (Htr : truthy (field d "datetime") = true).
    { rewrite Hs. cbn. apply negb_true_iff, String.eqb_neq, Hne. }
    rewrite Htr, Hg. cbn [negb]. rewrite Hs. cbn [py_fromisoformat]. rewrite Hfs.
    rewrite add_event_cases, Htz.
    rewrite py_or_default_twice by reflexivity. rewrite Hcol.
    cbv zeta. cbn [fst snd List.app]. split; [reflexivity|].
    destruct (events_endpoint w tok _) as [r|e]; [|discriminate].
    destruct ((400 <=? status_code r) && (status_code r <? 600)); [discriminate|].
    destruct (json_body r); discriminate.
Qed.

(** C5. Every payload the event builder sends has identical [start]
    and [end], both the ISO-8601 text of the naive input datetime
    with the offset of America/New_York attached: the wall-clock
    fields are those of the input, followed by the designator. For a
    naive input and a resolvable colour the payload is sent. *)
Theorem C5_start_equals_end_localized (w : world) (tok summary color : json)
    (start : datetime) :
  (forall tok' p,
     In (EvCreateEvent tok' p) (fst (add_event ny_utcoffset w tok summary color start)) ->
     tzinfo start = None /\
     localize ny_utcoffset start = Ok (with_offset (ny_utcoffset start) start) /\
     ev_start_dateTime p = ev_end_dateTime p /\
     ev_start_timeZone p = ev_end_timeZone p /\
     ev_start_timeZone p = "America/New_York" /\
     ev_start_dateTime p = Fmt.isoformat (with_offset (ny_utcoffset start) start) /\
     ev_start_dateTime p =
       Fmt.date_part start ++ "T" ++ Fmt.time_part start
       ++ Fmt.offset_part (ny_utcoffset start)) /\
  (forall cid,
     tzinfo start = None ->
     py_get_nearest_color_id (py_or color (JStr "#008080")) = Ok cid ->
     fst (add_event ny_utcoffset w tok summary color start)
       = [EvCreateEvent tok (payload_of ny_utcoffset summary cid start)]).
Proof.
  rewrite add_event_cases. split.
  - intros tok' p H.
    destruct (tzinfo start) as [off|] eqn:Htz; [destruct H|].
    destruct (py_get_nearest_color_id (py_or color (JStr "#008080"))) as [cid|e];
      [|destruct H].
    cbv zeta in H. cbn [fst] in H. destruct H as [H|[]].
    injection H as <- <-.
    split; [reflexivity|]. split.
    { unfold localize. rewrite Htz. reflexivity. }
    unfold payload_of. cbn [ev_start_dateTime ev_end_dateTime ev_start_timeZone
                              ev_end_timeZone].
    repeat split.
  - intros cid Htz Hcol. rewrite Htz, Hcol. reflexivity.
Qed.

(** C6. The summary of every event sent to the calendar is
    ["No Title"] when the extracted title is absent, null or empty,
    and the title itself when it is a non-empty string. *)
Theorem C6_summary_defaults_to_no_title (w : world) (rq : request) (tok : json)
    (p : calendar_event) :
  In (EvCreateEvent tok p) (fst (process w rq)) ->
  exists (tr : list event) (text raw : string) (d : list (string * json)),
    transcribe w rq = (tr, Ok (Ok text)) /\
    chat_completion w (prompt_of w text) = Ok (Some raw) /\
    json_loads raw = Some (JObj d) /\
    (dict_get d "title" = None \/ dict_get d "title" = Some JNull
     \/ dict_get d "title" = Some (JStr EmptyString) -> ev_summary p = JStr "No Title") /\
    (forall s, dict_get d "title" = Some (JStr s) -> s <> EmptyString -> ev_summary p = JStr s).
Proof.
  intros H.
  destruct (process_create_inv _ _ _ _ _ _ _ H)
    as (tr & text & raw & d & s & start & cid & _ & _ & Ht & Hchat & Hj & _ & _ & _ & _
        & _ & _ & ->).
  exists tr, text, raw, d. repeat split; try assumption.
  - unfold payload_of, field. cbn [ev_summary].
    intros [-> | [-> | ->]]; reflexivity.
  - intros t Hd Hne. unfold payload_of, field. cbn [ev_summary]. rewrite Hd.
    unfold py_or. cbn [truthy].
    apply String.eqb_neq in Hne. rewrite Hne. reflexivity.
Qed.

(** C10. When the extracted datetime string carries a UTC offset, so
    that [fromisoformat] gives an aware datetime, the request ends
    in an unhandled exception and no event is created: once the token
    is obtained, [localize] raises [ValueError] (status 500). On a
    naive datetime [localize] does not raise. *)
Theorem C10_aware_datetime_is_unhandled (w : world) (rq : request)
    (tr : list event) (text raw s : string) (d : list (string * json))
    (start : datetime) :
  authorization rq = AUTH_PASSWORD w ->
  py_in (content_type rq) ALLOWED_TYPES = true ->
  transcribe w rq = (tr, Ok (Ok text)) ->
  chat_completion w (prompt_of w text) = Ok (Some raw) ->
  json_loads raw = Some (JObj d) ->
  field d "datetime" = JStr s -> s <> EmptyString ->
  fromisoformat s = Ok start ->
  (forall off, tzinfo start = Some off ->
     (exists e, snd (process w rq) = Raise e) /\
     existsb creates_event (fst (process w rq)) = false /\
     (forall tok, snd (get_access_token w) = Ok tok ->
        snd (process w rq) = Raise ValueError /\
        http_status (snd (process w rq)) = 500)) /\
  (tzinfo start = None ->
     localize ny_utcoffset start = Ok (with_offset (ny_utcoffset start) start)).
Proof.
  intros Ha Hc Ht Hchat Hj Hs Hne Hfs.
  pose proof (transcribe_quiet w rq) as Hq. rewrite Ht in Hq. cbn [fst] in Hq.
  apply creation_is_downstream in Hq.
  split.
  - intros off Htz.
    rewrite (process_heard _ _ _ w rq tr text Ha Hc Ht).
    rewrite (after_transcription_dict _ _ _ w text raw d Hchat Hj).
    cbv zeta.
    assert (Htr : truthy (field d "datetime") = true).
    { rewrite Hs. cbn. apply negb_true_iff, String.eqb_neq, Hne. }
    rewrite Htr. cbn [negb]. rewrite Hs. cbn [py_fromisoformat]. rewrite Hfs.
    destruct (snd (get_access_token w)) as [tok|e]; cbn [fst snd].
    + rewrite add_event_cases, Htz. cbn [fst snd].
      split; [exists ValueError; reflexivity|]. split.
      * rewrite existsb_app, Hq. reflexivity.
      * intros tok' _. split; reflexivity.
    + split; [exists e; reflexivity|]. split.
      * rewrite existsb_app, Hq. reflexivity.
      * intros tok' H. discriminate H.
  - intros Htz. unfold localize. rewrite Htz. reflexivity.
Qed.

Section Fences.

(** No JSON document starts with a backtick. *)
Hypothesis json_loads_backtick : forall s, json_loads (String "`" s) = None.

(** C9. [call_gpt] decodes the raw content of the answer, never the
    text with the fences removed. For an answer whose JSON body is
    wrapped in code fences the stripped text is exactly that body,
    it is printed, and [call_gpt] raises a decoding error, which the
    handler leaves unhandled (status 500, no calendar call). *)
Theorem C9_fenced_answer_is_not_decoded (w : world) (text lang body : string)
    (v : json) :
  no_newline lang = true ->
  json_loads body = Some v ->
  chat_completion w (prompt_of w text) = Ok (Some (fenced lang body)) ->
  strip_fence (fenced lang body) = body /\
  call_gpt json_loads w text =
    ([EvChatCompletion (prompt_of w text); EvPrint ("GPT response: " ++ body)],
     Raise JSONDecodeError) /\
  (forall w' text' raw',
     chat_completion w' (prompt_of w' text') = Ok (Some raw') ->
     snd (call_gpt json_loads w' text') =
       match json_loads raw' with
       | Some v' => Ok v'
       | None => Raise JSONDecodeError
       end) /\
  (forall rq tr,
     authorization rq = AUTH_PASSWORD w ->
     py_in (content_type rq) ALLOWED_TYPES = true ->
     transcribe w rq = (tr, Ok (Ok text)) ->
     snd (process w rq) = Raise JSONDecodeError /\
     http_status (snd (process w rq)) = 500 /\
     existsb calendar_call (fst (process w rq)) = false).
Proof.
  intros Hl Hv Hchat.
  pose proof (strip_fence_fenced lang body Hl) as Hstrip.
  assert (Hraw : json_loads (fenced lang body) = None)
    by (unfold fenced; apply json_loads_backtick).
  assert (Hcall : call_gpt json_loads w text =
            ([EvChatCompletion (prompt_of w text); EvPrint ("GPT response: " ++ body)],
             Raise JSONDecodeError)).
  { rewrite (call_gpt_answer _ w text _ Hchat), Hraw, Hstrip. reflexivity. }
  split; [exact Hstrip|]. split; [exact Hcall|]. split.
  - intros w' text' raw' H. rewrite (call_gpt_answer _ w' text' raw' H). reflexivity.
  - intros rq tr Ha Hc Ht.
    pose proof (transcribe_quiet w rq) as Hq. rewrite Ht in Hq. cbn [fst] in Hq.
    rewrite (process_heard _ _ _ w rq tr text Ha Hc Ht).
    unfold after_transcription. rewrite Hcall, bind_raise. cbn [fst snd].
    split; [reflexivity|]. split; [reflexivity|].
    rewrite existsb_app, (calendar_is_downstream _ Hq). reflexivity.
Qed.

End Fences.

End HandlerFacts.

(* ================================================================= *)
(** ** The claims at concrete requests *)

Lemma ref_json_loads_backtick (s : string) : Ref.json_loads (String "`" s) = None.
Proof. reflexivity. Qed.

Lemma C7_rejected_before_any_call_witness :
  (Scenario.run Scenario.past_world Scenario.intruder_request
     = ([], Raise (HTTPException 401 "Unauthorized")) /\
   http_status (snd (Scenario.run Scenario.past_world Scenario.intruder_request)) = 401) /\
  (Scenario.run Scenario.past_world Scenario.video_request
     = ([], Raise (HTTPException 400 "Unsupported file type")) /\
   http_status (snd (Scenario.run Scenario.past_world Scenario.video_request)) = 400).
Proof.
  split.
  - apply (proj1 (C7_rejected_before_any_call Ref.json_loads Ref.fromisoformat
                    Ref.ny_utcoffset Scenario.past_world Scenario.intruder_request)).
    simpl. discriminate.
  - apply (proj2 (C7_rejected_before_any_call Ref.json_loads Ref.fromisoformat
                    Ref.ny_utcoffset Scenario.past_world Scenario.video_request)).
    + reflexivity.
    + reflexivity.
Defined.


Lemma C3_null_datetime_short_circuits_witness :
  exists msg,
    snd (Scenario.run Scenario.null_world Scenario.wav_request)
      = Ok (RespError Scenario.transcript msg) /\
    msg = "Invalid or past datetime in input" /\
    existsb calendar_call (fst (Scenario.run Scenario.null_world Scenario.wav_request))
      = false.
Proof.
  destruct (C3_null_datetime_short_circuits Ref.json_loads Ref.fromisoformat
              Ref.ny_utcoffset Scenario.null_world Scenario.wav_request
              [EvReadUpload; EvRecord; EvRecognize] Scenario.transcript
              Scenario.null_answer
              [("title", JStr "lunch with sam"); ("color", JStr "#0000ff");
               ("datetime", JNull)])
    as (msg & Hrun & Hmsg & _ & _ & Hquiet).
  - reflexivity.
  - reflexivity.
  - reflexivity.
  - reflexivity.
  - vm_compute. reflexivity.
  - right. reflexivity.
  - exists msg. unfold Scenario.run. rewrite Hrun. repeat split; assumption.
Defined.

Lemma C1_only_falsy_datetime_rejected_witness :
  snd (Scenario.run Scenario.null_world Scenario.wav_request)
    = Ok (RespError Scenario.transcript "Invalid or past datetime in input") /\
  (forall t err,
     snd (Edge.run (Edge.world_with (Some Edge.worded_datetime_answer)
                      (Ok Scenario.token_ok) (Ok Scenario.created))
            Scenario.wav_request) <> Ok (RespError t err)) /\
  In (EvCreateEvent (JStr "ya29.a0")
        (payload_of Ref.ny_utcoffset (JStr "lunch with sam") "9"
           (mk_datetime 2024 1 1 14 59 59 0 None)))
     (fst (Scenario.run Scenario.past_world Scenario.wav_request)).
Proof.
  split; [|split].
  - apply (proj1 (C1_only_falsy_datetime_rejected Ref.json_loads Ref.fromisoformat
                    Ref.ny_utcoffset Scenario.null_world Scenario.wav_request
                    [EvReadUpload; EvRecord; EvRecognize] Scenario.transcript
                    Scenario.null_answer
                    [("title", JStr "lunch with sam"); ("color", JStr "#0000ff");
                     ("datetime", JNull)]
                    eq_refl eq_refl eq_refl eq_refl eq_refl)).
    reflexivity.
  - assert (Hj : Ref.json_loads Edge.worded_datetime_answer
                 = Some (JObj [("title", JStr "lunch with sam"); ("color", JNull);
                               ("datetime", JStr "tomorrow")]))
      by (vm_compute; reflexivity).
    destruct (C1_only_falsy_datetime_rejected Ref.json_loads
                Ref.fromisoformat Ref.ny_utcoffset
                (Edge.world_with (Some Edge.worded_datetime_answer)
                   (Ok Scenario.token_ok) (Ok Scenario.created))
                Scenario.wav_request
                [EvReadUpload; EvRecord; EvRecognize] Scenario.transcript
                Edge.worded_datetime_answer
                [("title", JStr "lunch with sam"); ("color", JNull);
                 ("datetime", JStr "tomorrow")]
                eq_refl eq_refl eq_refl eq_refl Hj) as (_ & Htruthy & _).
    exact (proj1 (Htruthy eq_refl)).
  - destruct (proj2 (proj2 (C1_only_falsy_datetime_rejected Ref.json_loads
                       Ref.fromisoformat
                       Ref.ny_utcoffset Scenario.past_world Scenario.wav_request
                       [EvReadUpload; EvRecord; EvRecognize] Scenario.transcript
                       Scenario.past_answer
                       [("title", JStr "lunch with sam"); ("color", JStr "#0000ff");
                        ("datetime", JStr "2024-01-01T14:59:59")]
                       eq_refl eq_refl eq_refl eq_refl eq_refl))
                "2024-01-01T14:59:59" (mk_datetime 2024 1 1 14 59 59 0 None)
                (JStr "ya29.a0") "9") as [Htrace _].
    + reflexivity.
    + discriminate.
    + reflexivity.
    + reflexivity.
    + reflexivity.
    + vm_compute. reflexivity.
    + unfold Scenario.run. rewrite Htrace. apply in_or_app. right.
      simpl. tauto.
Defined.

(** C1 as the specification states it fails: with the clock at
    2024-01-01T15:00:00 and the extracted datetime 2024-01-01T14:59:59,
    one second earlier, the handler obtains a token and creates an
    event starting 2024-01-01T14:59:59-05:00. *)
Lemma C1_past_datetime_is_accepted :
  Ref.fromisoformat "2024-01-01T14:59:59" = Ok (mk_datetime 2024 1 1 14 59 59 0 None) /\
  wall_leb (mk_datetime 2024 1 1 14 59 59 0 None) (now Scenario.past_world) = true /\
  (exists parsed created,
     snd (Scenario.run Scenario.past_world Scenario.wav_request)
       = Ok (RespEvent Scenario.transcript parsed created)) /\
  In (EvCreateEvent (JStr "ya29.a0")
        {| ev_summary := JStr "lunch with sam";
           ev_start_dateTime := "2024-01-01T14:59:59-05:00";
           ev_start_timeZone := "America/New_York";
           ev_end_dateTime := "2024-01-01T14:59:59-05:00";
           ev_end_timeZone := "America/New_York";
           ev_colorId := "9" |})
     (fst (Scenario.run Scenario.past_world Scenario.wav_request)) /\
  ~ rejects_past Ref.json_loads Ref.fromisoformat Ref.ny_utcoffset.
Proof.
  split; [reflexivity|]. split; [reflexivity|]. split.
  { eexists. eexists. vm_compute. reflexivity. }
  split.
  { vm_compute. tauto. }
  intros H.
  destruct (H Scenario.past_world Scenario.wav_request
              [EvReadUpload; EvRecord; EvRecognize] Scenario.transcript
              Scenario.past_answer "2024-01-01T14:59:59"
              [("title", JStr "lunch with sam"); ("color", JStr "#0000ff");
               ("datetime", JStr "2024-01-01T14:59:59")]
              (mk_datetime 2024 1 1 14 59 59 0 None)
              eq_refl eq_refl eq_refl eq_refl eq_refl eq_refl eq_refl eq_refl)
    as [Hsoft _].
  vm_compute in Hsoft. discriminate Hsoft.
Qed.

Lemma C5_start_equals_end_localized_witness :
  ev_start_dateTime
    (payload_of Ref.ny_utcoffset (JStr "lunch with sam") "9"
       (mk_datetime 2024 1 2 9 0 0 0 None))
  = ev_end_dateTime
      (payload_of Ref.ny_utcoffset (JStr "lunch with sam") "9"
         (mk_datetime 2024 1 2 9 0 0 0 None)) /\
  ev_start_dateTime
    (payload_of Ref.ny_utcoffset (JStr "lunch with sam") "9"
       (mk_datetime 2024 1 2 9 0 0 0 None))
  = "2024-01-02T09:00:00-05:00".
Proof.
  destruct (proj1 (C5_start_equals_end_localized Ref.ny_utcoffset Scenario.past_world
                     (JStr "ya29.a0") (JStr "lunch with sam") (JStr "#0000ff")
                     (mk_datetime 2024 1 2 9 0 0 0 None))
              (JStr "ya29.a0")
              (payload_of Ref.ny_utcoffset (JStr "lunch with sam") "9"
                 (mk_datetime 2024 1 2 9 0 0 0 None)))
    as (_ & _ & Heq & _ & _ & _ & Hiso).
  - vm_compute. left. reflexivity.
  - split; [exact Heq|]. rewrite Hiso. vm_compute. reflexivity.
Defined.

Lemma C6_summary_defaults_to_no_title_witness :
  exists p,
    In (EvCreateEvent (JStr "ya29.a0") p)
       (fst (Scenario.run Scenario.untitled_world Scenario.wav_request)) /\
    ev_summary p = JStr "No Title".
Proof.
  exists (payload_of Ref.ny_utcoffset (JStr "No Title") "10"
            (mk_datetime 2024 1 2 9 0 0 0 None)).
  assert (Hin : In (EvCreateEvent (JStr "ya29.a0")
                      (payload_of Ref.ny_utcoffset (JStr "No Title") "10"
                         (mk_datetime 2024 1 2 9 0 0 0 None)))
                   (fst (Scenario.run Scenario.untitled_world Scenario.wav_request))).
  { vm_compute. tauto. }
  split; [exact Hin|].
  destruct (C6_summary_defaults_to_no_title Ref.json_loads Ref.fromisoformat
              Ref.ny_utcoffset Scenario.untitled_world Scenario.wav_request
              (JStr "ya29.a0") _ Hin)
    as (tr & text & raw & d & _ & Hchat & Hj & Hnull & _).
  injection Hchat as <-.
  vm_compute in Hj. injection Hj as <-.
  apply Hnull. right. left. reflexivity.
Defined.

Lemma C9_fenced_answer_is_not_decoded_witness :
  strip_fence Scenario.fenced_answer = Scenario.past_answer /\
  snd (call_gpt Ref.json_loads Scenario.fenced_world Scenario.transcript)
    = Raise JSONDecodeError /\
  snd (Scenario.run Scenario.fenced_world Scenario.wav_request) = Raise JSONDecodeError.
Proof.
  destruct (C9_fenced_answer_is_not_decoded Ref.json_loads Ref.fromisoformat
              Ref.ny_utcoffset ref_json_loads_backtick
              Scenario.fenced_world Scenario.transcript "json" Scenario.past_answer
              (JObj [("title", JStr "lunch with sam"); ("color", JStr "#0000ff");
                     ("datetime", JStr "2024-01-01T14:59:59")]))
    as (Hstrip & Hcall & _ & Hrun).
  - reflexivity.
  - vm_compute. reflexivity.
  - reflexivity.
  - split; [exact Hstrip|]. split.
    + rewrite Hcall. reflexivity.
    + destruct (Hrun Scenario.wav_request [EvReadUpload; EvRecord; EvRecognize]
                  eq_refl eq_refl eq_refl) as [H _].
      exact H.
Defined.

Lemma C10_aware_datetime_is_unhandled_witness :
  Ref.fromisoformat "2024-01-02T09:00:00-05:00"
    = Ok (mk_datetime 2024 1 2 9 0 0 0 (Some (-18000))) /\
  snd (Scenario.run Scenario.offset_world Scenario.wav_request) = Raise ValueError /\
  http_status (snd (Scenario.run Scenario.offset_world Scenario.wav_request)) = 500.
Proof.
  split; [reflexivity|].
  destruct (proj1 (C10_aware_datetime_is_unhandled Ref.json_loads Ref.fromisoformat
                     Ref.ny_utcoffset Scenario.offset_world Scenario.wav_request
                     [EvReadUpload; EvRecord; EvRecognize] Scenario.transcript
                     Scenario.offset_answer "2024-01-02T09:00:00-05:00"
                     [("title", JStr "lunch with sam"); ("color", JNull);
                      ("datetime", JStr "2024-01-02T09:00:00-05:00")]
                     (mk_datetime 2024 1 2 9 0 0 0 (Some (-18000)))
                     eq_refl eq_refl eq_refl eq_refl eq_refl eq_refl
                     ltac:(discriminate) eq_refl)
              (-18000) eq_refl) as (_ & _ & Htok).
  apply (Htok (JStr "ya29.a0")). reflexivity.
Defined.

(* ================================================================= *)
(** ** More on the colour resolver *)

Lemma lstrip_hashes (n : nat) (a : ascii) (s : string) :
  Ascii.eqb a "#" = false ->
  PyStr.lstrip "#" (hashes n ++ String a s) = String a s.
Proof.
  intros Ha. induction n as [|n IH]; cbn [hashes append].
  - cbn [PyStr.lstrip]. rewrite Ha. reflexivity.
  - rewrite lstrip_hash. exact IH.
Qed.

Lemma substring_0_0 (s : string) : substring 0 0 s = EmptyString.
Proof. destruct s; reflexivity. Qed.

(** X1. Around six hexadecimal digits the resolver accepts any number
    of leading [#] and ignores every character after the sixth digit. *)
Theorem X1_hashes_and_tail_ignored (s : string) (n : nat) (tail : string) :
  is_hex6 s = true ->
  hex_to_rgb (hashes n ++ s ++ tail) = hex_to_rgb s /\
  get_nearest_color_id (hashes n ++ s ++ tail) = get_nearest_color_id s.
Proof.
  intros H.
  assert (E : hex_to_rgb (hashes n ++ s ++ tail) = hex_to_rgb s).
  { destruct (is_hex6_inv s H)
      as (a1 & a2 & a3 & a4 & a5 & a6 & d1 & d2 & d3 & d4 & d5 & d6
          & -> & H1 & H2 & H3 & H4 & H5 & H6).
    destruct (hex_digit_char _ _ H1) as (_ & _ & N1 & _).
    unfold hex_to_rgb. cbn [append]. rewrite lstrip_hashes by exact N1.
    cbn [PyStr.lstrip]. rewrite N1.
    cbn [PyStr.slice substring]. rewrite substring_0_0. reflexivity. }
  split; [exact E|]. unfold get_nearest_color_id. rewrite E. reflexivity.
Qed.

Lemma X1_hashes_and_tail_ignored_witness :
  hex_to_rgb "##0000ffaa" = hex_to_rgb "0000ff" /\
  get_nearest_color_id "##0000ffaa" = get_nearest_color_id "0000ff".
Proof.
  apply (X1_hashes_and_tail_ignored "0000ff" 2 "aa"). reflexivity.
Defined.

Lemma lower_hex_digit (c : ascii) (d : Z) :
  PyStr.hex_digit c = Some d ->
  PyStr.hex_digit
    (if (65 <=? PyStr.code c) && (PyStr.code c <=? 90)
     then ascii_of_N (Z.to_N (PyStr.code c + 32)) else c) = Some d.
Proof.
  destruct c as [[] [] [] [] [] [] [] []]; vm_compute; intros H;
    try discriminate H; exact H.
Qed.

(** X2. The resolver does not distinguish the case of the hexadecimal
    digits. *)
Theorem X2_case_insensitive (s : string) :
  is_hex6 s = true ->
  hex_to_rgb (lower s) = hex_to_rgb s /\
  get_nearest_color_id (lower s) = get_nearest_color_id s /\
  get_nearest_color_id ("#" ++ lower s) = get_nearest_color_id ("#" ++ s).
Proof.
  intros H.
  destruct (is_hex6_inv s H)
    as (a1 & a2 & a3 & a4 & a5 & a6 & d1 & d2 & d3 & d4 & d5 & d6
        & -> & H1 & H2 & H3 & H4 & H5 & H6).
  assert (E : hex_to_rgb
                (lower (String a1 (String a2 (String a3 (String a4 (String a5
                   (String a6 EmptyString)))))))
              = hex_to_rgb (String a1 (String a2 (String a3 (String a4 (String a5
                   (String a6 EmptyString))))))).
  { pose proof (lower_hex_digit _ _ H1) as L1.
    pose proof (lower_hex_digit _ _ H2) as L2.
    pose proof (lower_hex_digit _ _ H3) as L3.
    pose proof (lower_hex_digit _ _ H4) as L4.
    pose proof (lower_hex_digit _ _ H5) as L5.
    pose proof (lower_hex_digit _ _ H6) as L6.
    destruct (hex_digit_char _ _ H1) as (_ & _ & N1 & _).
    destruct (hex_digit_char _ _ L1) as (_ & _ & M1 & _).
    cbn [lower]. unfold hex_to_rgb. cbn [PyStr.lstrip]. rewrite N1, M1.
    cbn [PyStr.slice substring].
    rewrite (int16_pair _ _ _ _ H1 H2), (int16_pair _ _ _ _ H3 H4),
      (int16_pair _ _ _ _ H5 H6), (int16_pair _ _ _ _ L1 L2),
      (int16_pair _ _ _ _ L3 L4), (int16_pair _ _ _ _ L5 L6).
    reflexivity. }
  split; [exact E|]. split.
  - unfold get_nearest_color_id. rewrite E. reflexivity.
  - unfold get_nearest_color_id, hex_to_rgb. cbn [append]. rewrite !lstrip_hash.
    fold (hex_to_rgb (lower (String a1 (String a2 (String a3 (String a4 (String a5
                   (String a6 EmptyString)))))))).
    fold (hex_to_rgb (String a1 (String a2 (String a3 (String a4 (String a5
                   (String a6 EmptyString))))))).
    rewrite E. reflexivity.
Qed.

Lemma X2_case_insensitive_witness :
  hex_to_rgb (lower "A4BDfc") = hex_to_rgb "A4BDfc" /\
  get_nearest_color_id (lower "A4BDfc") = get_nearest_color_id "A4BDfc" /\
  get_nearest_color_id ("#" ++ lower "A4BDfc") = get_nearest_color_id ("#" ++ "A4BDfc").
Proof. apply (X2_case_insensitive "A4BDfc"). reflexivity. Defined.

Lemma substring_short (u : string) :
  (String.length u <= 4)%nat -> substring 4 2 u = EmptyString.
Proof.
  destruct u as [|c1 [|c2 [|c3 [|c4 [|c5 u]]]]]; cbn; intros H;
    try reflexivity; lia.
Qed.

(** X3. A colour with fewer than five characters after its leading
    [#] is refused: the third channel is read from an empty slice, and
    [int] raises [ValueError]. This holds in particular for the empty
    string and for a lone [#]. *)
Theorem X3_short_colour_raises (s : string) :
  (String.length (PyStr.lstrip "#" s) <= 4)%nat ->
  hex_to_rgb s = None /\
  get_nearest_color_id s = None /\
  py_get_nearest_color_id (JStr s) = Raise ValueError.
Proof.
  intros H.
  assert (E : hex_to_rgb s = None).
  { unfold hex_to_rgb, PyStr.slice. rewrite (substring_short _ H).
    destruct (PyStr.int16 (substring 0 2 (PyStr.lstrip "#" s))); [|reflexivity].
    destruct (PyStr.int16 (substring 2 2 (PyStr.lstrip "#" s))); reflexivity. }
  assert (G : get_nearest_color_id s = None)
    by (unfold get_nearest_color_id; rewrite E; reflexivity).
  split; [exact E|]. split; [exact G|].
  cbn [py_get_nearest_color_id]. rewrite G. reflexivity.
Qed.

Lemma X3_short_colour_raises_witness :
  hex_to_rgb "#fff" = None /\
  get_nearest_color_id "#fff" = None /\
  py_get_nearest_color_id (JStr "#fff") = Raise ValueError.
Proof. apply (X3_short_colour_raises "#fff"). simpl. lia. Defined.

Lemma int16_single (a : ascii) (x : Z) :
  PyStr.hex_digit a = Some x -> PyStr.int16 (String a EmptyString) = Some x.
Proof.
  intros Ha.
  destruct (hex_digit_char _ _ Ha) as (_ & Sa & _ & Pa & Ma & Ua & _ & _).
  unfold PyStr.int16, PyStr.strip. cbn [PyStr.lstrip_space]. rewrite Sa.
  cbn [PyStr.rstrip_space]. rewrite Sa. rewrite Pa, Ma.
  unfold PyStr.hex_unsigned, PyStr.has_0x.
  cbn [PyStr.hex_body]. rewrite Ua, Ha. reflexivity.
Qed.

(** X4. Five hexadecimal digits are accepted: the last channel is read
    from the single remaining digit, so the colour is the one of the
    six-digit string with a [0] inserted before the last digit. *)
Theorem X4_five_digits_accepted (a1 a2 a3 a4 a5 : ascii) :
  forallb (fun c => match PyStr.hex_digit c with Some _ => true | None => false end)
    [a1; a2; a3; a4; a5] = true ->
  hex_to_rgb (String a1 (String a2 (String a3 (String a4 (String a5 EmptyString)))))
  = hex_to_rgb (String a1 (String a2 (String a3 (String a4
                 (String "0" (String a5 EmptyString)))))) /\
  hex_to_rgb (String a1 (String a2 (String a3 (String a4 (String a5 EmptyString)))))
  <> None.
Proof.
  cbn [forallb]. intros H.
  repeat (apply andb_prop in H as [? H]).
  destruct (PyStr.hex_digit a1) as [d1|] eqn:D1; [|discriminate].
  destruct (PyStr.hex_digit a2) as [d2|] eqn:D2; [|discriminate].
  destruct (PyStr.hex_digit a3) as [d3|] eqn:D3; [|discriminate].
  destruct (PyStr.hex_digit a4) as [d4|] eqn:D4; [|discriminate].
  destruct (PyStr.hex_digit a5) as [d5|] eqn:D5; [|discriminate].
  destruct (hex_digit_char _ _ D1) as (_ & _ & N1 & _).
  assert (D0 : PyStr.hex_digit "0" = Some 0) by reflexivity.
  unfold hex_to_rgb. cbn [PyStr.lstrip]. rewrite N1.
  cbn [PyStr.slice substring].
  rewrite (int16_pair _ _ _ _ D1 D2), (int16_pair _ _ _ _ D3 D4),
    (int16_single _ _ D5), (int16_pair _ _ _ _ D0 D5).
  split; [reflexivity|discriminate].
Qed.

Lemma X4_five_digits_accepted_witness :
  hex_to_rgb "abcde" = hex_to_rgb "abcd0e" /\ hex_to_rgb "abcde" <> None.
Proof.
  apply (X4_five_digits_accepted "a" "b" "c" "d" "e"). reflexivity.
Defined.

Lemma nearest_loop_id (t : rgb) :
  forall (items : list (string * string)) (st : spec_float * string),
    Forall (fun e => hex_to_rgb (snd e) <> None) items ->
    exists st', nearest_loop t items st = Some st' /\
                (snd st' = snd st \/ In (snd st') (map fst items)).
Proof.
  induction items as [|[cid hex] items IH]; intros st HF.
  - exists st. split; [reflexivity|left; reflexivity].
  - inversion HF as [|e l He HF']; subst. cbn [snd] in He.
    cbn [nearest_loop nearest_step].
    destruct (hex_to_rgb hex) as [p|]; [|contradiction].
    destruct (Float64.ltb (Float64.sqrt_int (dist_sq t p)) (fst st)).
    + destruct (IH (Float64.sqrt_int (dist_sq t p), cid) HF') as (st' & E & Hs).
      exists st'. split; [exact E|]. right. cbn [map fst]. cbn [snd] in Hs.
      destruct Hs as [-> | Hs]; [left; reflexivity|right; exact Hs].
    + destruct (IH st HF') as (st' & E & Hs).
      exists st'. split; [exact E|]. destruct Hs as [Hs|Hs]; [left; exact Hs|].
      right. right. exact Hs.
Qed.

Lemma palette_parses : Forall (fun e => hex_to_rgb (snd e) <> None) COLOR_HEX_MAP.
Proof. repeat constructor; discriminate. Qed.

(** X5. The resolver raises exactly when parsing its input raises; on
    every input it accepts, six digits or not, it returns one of the
    identifiers of the palette. *)
Theorem X5_resolver_returns_a_slot (s : string) :
  (hex_to_rgb s = None -> get_nearest_color_id s = None) /\
  (forall t, hex_to_rgb s = Some t ->
     exists cid, get_nearest_color_id s = Some cid /\
                 In cid (map fst COLOR_HEX_MAP)).
Proof.
  split.
  - intros E. unfold get_nearest_color_id. rewrite E. reflexivity.
  - intros t E. unfold get_nearest_color_id. rewrite E.
    destruct (nearest_loop_id t COLOR_HEX_MAP (Float64.inf, "1") palette_parses)
      as ([m best] & El & Hs).
    rewrite El. exists best. split; [reflexivity|].
    cbn [snd] in Hs. destruct Hs as [-> | Hs]; [|exact Hs].
    left. reflexivity.
Qed.

Lemma X5_resolver_returns_a_slot_witness :
  get_nearest_color_id "zz0000" = None /\
  exists cid, get_nearest_color_id "-f+f f" = Some cid /\
              In cid (map fst COLOR_HEX_MAP).
Proof.
  split.
  - apply (proj1 (X5_resolver_returns_a_slot "zz0000")). reflexivity.
  - apply (proj2 (X5_resolver_returns_a_slot "-f+f f") (-15, 15, 15)). reflexivity.
Defined.

(** X6. Each canonical colour of the palette resolves to its own
    slot: the eleven colours are pairwise distinct and the resolver
    is the identity on them. *)
Theorem X6_palette_colours_are_fixed :
  Forall (fun e => get_nearest_color_id (snd e) = Some (fst e)) COLOR_HEX_MAP /\
  NoDup (map snd COLOR_HEX_MAP) /\ NoDup (map fst COLOR_HEX_MAP).
Proof.
  split; [|split].
  - repeat constructor; vm_compute; reflexivity.
  - repeat constructor; cbn; intuition discriminate.
  - repeat constructor; cbn; intuition discriminate.
Qed.

(** X7. The table of named colours only holds well-formed colours, a
    [#] and six hexadecimal digits, under pairwise distinct names; the
    resolver accepts each of them, and the colour named teal is the
    default that [add_event] and [process_audio] use. *)
Theorem X7_named_colours_well_formed :
  Forall (fun e => is_hash_hex6 (snd e) = true) CSS_COLOR_NAMES /\
  NoDup (map fst CSS_COLOR_NAMES) /\
  Forall (fun e => exists cid, get_nearest_color_id (snd e) = Some cid /\
                               In cid (map fst COLOR_HEX_MAP)) CSS_COLOR_NAMES /\
  css_get CSS_COLOR_NAMES "teal" = Some "#008080" /\
  (forall off w tok summary start,
     add_event off w tok summary JNull start =
     add_event off w tok summary
       (match css_get CSS_COLOR_NAMES "teal" with Some c => JStr c | None => JNull end)
       start).
Proof.
  split; [|split; [|split; [|split]]].
  - repeat constructor.
  - repeat constructor; cbn; intuition discriminate.
  - repeat constructor;
      (eexists; split; [vm_compute; reflexivity|cbn; tauto]).
  - reflexivity.
  - intros. reflexivity.
Qed.

(* ================================================================= *)
(** ** More on the request handler *)

Ltac split_match :=
  match goal with
  | |- context [match ?x with _ => _ end] =>
      lazymatch x with
      | context [match _ with _ => _ end] => fail
      | _ => destruct x eqn:?
      end
  | |- context [if ?x then _ else _] =>
      lazymatch x with
      | context [if _ then _ else _] => fail
      | context [match _ with _ => _ end] => fail
      | _ => destruct x eqn:?
      end
  end.

Ltac run_handler :=
  unfold process_audio, after_transcription, transcribe, call_gpt,
    get_access_token, add_event, localize, raise_for_status,
    py_fromisoformat, py_get_nearest_color_id, py_get;
  repeat (cbn [bind emit lift ret raise fst snd List.app negb]; try split_match).

Section HandlerOrder.

Variable json_loads : string -> option json.
Variable fromisoformat : string -> outcome datetime.
Variable ny_utcoffset : datetime -> Z.

Local Abbreviation process := (process_audio json_loads fromisoformat ny_utcoffset).

(** X8. Whatever the collaborators answer, a request calls them in
    pipeline order, each at most once: upload, transcoding (skipped for
    wav), recording, recognition, extraction, the print of the answer,
    token, event creation. Nothing is retried and no later stage runs
    before an earlier one. *)
Theorem X8_calls_in_pipeline_order (w : world) (rq : request) :
  in_order (fst (process w rq)) = true.
Proof.
  run_handler; reflexivity.
Qed.

End HandlerOrder.

Section HandlerEdges.

Variable json_loads : string -> option json.
Variable fromisoformat : string -> outcome datetime.
Variable ny_utcoffset : datetime -> Z.

Local Abbreviation process := (process_audio json_loads fromisoformat ny_utcoffset).
Local Abbreviation prompt_of w text := (prompt_for (Fmt.strftime_Ymd (now w)) text).
Local Abbreviation said w text raw :=
  [EvChatCompletion (prompt_of w text); EvPrint ("GPT response: " ++ strip_fence raw)].

(** The handler on an answer that decodes to a [dict] with a truthy
    [datetime]. *)
Lemma process_scheduling (w : world) (rq : request) (tr : list event)
    (text raw : string) (d : list (string * json)) :
  authorization rq = AUTH_PASSWORD w ->
  py_in (content_type rq) ALLOWED_TYPES = true ->
  transcribe w rq = (tr, Ok (Ok text)) ->
  chat_completion w (prompt_of w text) = Ok (Some raw) ->
  json_loads raw = Some (JObj d) ->
  truthy (field d "datetime") = true ->
  process w rq =
  match snd (get_access_token w) with
  | Raise e => ((tr ++ said w text raw ++ [EvTokenRequest])%list, Raise e)
  | Ok tok =>
      match py_fromisoformat fromisoformat (field d "datetime") with
      | Raise e => ((tr ++ said w text raw ++ [EvTokenRequest])%list, Raise e)
      | Ok start =>
          let r := add_event ny_utcoffset w tok
                     (py_or (field d "title") (JStr "No Title"))
                     (py_or (field d "color") (JStr "#008080")) start in
          ((tr ++ said w text raw ++ EvTokenRequest :: fst r)%list,
           match snd r with
           | Ok event_result => Ok (RespEvent text (JObj d) event_result)
           | Raise e => Raise e
           end)
      end
  end.
Proof.
  intros Ha Hc Ht Hchat Hj Htr.
  rewrite (process_heard _ _ _ w rq tr text Ha Hc Ht).
  rewrite (after_transcription_dict _ _ _ w text raw d Hchat Hj).
  cbv zeta. rewrite Htr. cbn [negb].
  destruct (snd (get_access_token w)) as [tok|e]; [|reflexivity].
  destruct (py_fromisoformat fromisoformat (field d "datetime")); reflexivity.
Qed.

Lemma get_access_token_cases (w : world) :
  snd (get_access_token w) =
  match token_endpoint w with
  | Raise e => Raise e
  | Ok r =>
      if is_error_status (status_code r) then Raise (HTTPError (status_code r))
      else match json_body r with
           | Raise e => Raise e
           | Ok body => py_get body "access_token"
           end
  end.
Proof.
  unfold get_access_token, raise_for_status, is_error_status.
  destruct (token_endpoint w) as [r|e]; cbn; [|reflexivity].
  destruct ((400 <=? status_code r) && (status_code r <? 600)); cbn; [reflexivity|].
  destruct (json_body r) as [b|e]; cbn; [|reflexivity].
  destruct (py_get b "access_token"); reflexivity.
Qed.

(** X9. When the token endpoint answers with a status from 400 to 599,
    the request fails with [HTTPError] right after the token request:
    the body of the answer is not read, the extracted datetime is not
    parsed, and no event is created. *)
Theorem X9_token_error_status (w : world) (rq : request) (tr : list event)
    (text raw : string) (d : list (string * json)) (r : http_response) :
  authorization rq = AUTH_PASSWORD w ->
  py_in (content_type rq) ALLOWED_TYPES = true ->
  transcribe w rq = (tr, Ok (Ok text)) ->
  chat_completion w (prompt_of w text) = Ok (Some raw) ->
  json_loads raw = Some (JObj d) ->
  truthy (field d "datetime") = true ->
  token_endpoint w = Ok r ->
  is_error_status (status_code r) = true ->
  process w rq = ((tr ++ said w text raw ++ [EvTokenRequest])%list,
                  Raise (HTTPError (status_code r))) /\
  http_status (snd (process w rq)) = 500.
Proof.
  intros Ha Hc Ht Hchat Hj Htr Hr Hs.
  rewrite (process_scheduling w rq tr text raw d Ha Hc Ht Hchat Hj Htr).
  rewrite get_access_token_cases, Hr, Hs. split; reflexivity.
Qed.

(** X10. The token is not checked: when the token endpoint answers
    with a non-error status and a JSON object without [access_token],
    [get_access_token] returns [None], and for a naive datetime and a
    resolvable colour the event is still posted, with that [None] in
    the bearer header. *)
Theorem X10_missing_token_is_not_checked (w : world) (rq : request)
    (tr : list event) (text raw s : string) (d body : list (string * json))
    (r : http_response) (start : datetime) (cid : string) :
  authorization rq = AUTH_PASSWORD w ->
  py_in (content_type rq) ALLOWED_TYPES = true ->
  transcribe w rq = (tr, Ok (Ok text)) ->
  chat_completion w (prompt_of w text) = Ok (Some raw) ->
  json_loads raw = Some (JObj d) ->
  field d "datetime" = JStr s -> s <> EmptyString ->
  fromisoformat s = Ok start -> tzinfo start = None ->
  py_get_nearest_color_id (py_or (field d "color") (JStr "#008080")) = Ok cid ->
  token_endpoint w = Ok r ->
  is_error_status (status_code r) = false ->
  json_body r = Ok (JObj body) ->
  dict_get body "access_token" = None ->
  get_access_token w = ([EvTokenRequest], Ok JNull) /\
  fst (process w rq) =
    (tr ++ said w text raw
        ++ [EvTokenRequest;
            EvCreateEvent JNull
              (payload_of ny_utcoffset (py_or (field d "title") (JStr "No Title"))
                 cid start)])%list.
Proof.
  intros Ha Hc Ht Hchat Hj Hs Hne Hfs Htz Hcol Hr Hst Hb Hk.
  assert (Htr : truthy (field d "datetime") = true).
  { rewrite Hs. cbn. apply negb_true_iff, String.eqb_neq, Hne. }
  assert (Hg : snd (get_access_token w) = Ok JNull).
  { rewrite get_access_token_cases, Hr, Hst, Hb. cbn [py_get]. rewrite Hk. reflexivity. }
  split.
  - rewrite <- (get_access_token_trace w), <- Hg. symmetry. apply pair_fst_snd.
  - rewrite (process_scheduling w rq tr text raw d Ha Hc Ht Hchat Hj Htr).
    rewrite Hg, Hs. cbn [py_fromisoformat]. rewrite Hfs.
    rewrite add_event_cases, Htz.
    rewrite py_or_default_twice by reflexivity. rewrite Hcol. reflexivity.
Qed.

(** X11. The extracted datetime is parsed only after the token has
    been requested: a truthy datetime that [fromisoformat] refuses
    makes the request fail after the token request, with no event
    created. A truthy datetime that is not a string (a number, [true],
    a list, an object) is refused with [TypeError]. *)
Theorem X11_datetime_parsed_after_token (w : world) (rq : request)
    (tr : list event) (text raw : string) (d : list (string * json)) (tok : json) :
  authorization rq = AUTH_PASSWORD w ->
  py_in (content_type rq) ALLOWED_TYPES = true ->
  transcribe w rq = (tr, Ok (Ok text)) ->
  chat_completion w (prompt_of w text) = Ok (Some raw) ->
  json_loads raw = Some (JObj d) ->
  truthy (field d "datetime") = true ->
  snd (get_access_token w) = Ok tok ->
  (forall e, py_fromisoformat fromisoformat (field d "datetime") = Raise e ->
     process w rq = ((tr ++ said w text raw ++ [EvTokenRequest])%list, Raise e)) /\
  ((forall s, field d "datetime" <> JStr s) ->
     process w rq = ((tr ++ said w text raw ++ [EvTokenRequest])%list, Raise TypeError)).
Proof.
  intros Ha Hc Ht Hchat Hj Htr Hg.
  rewrite (process_scheduling w rq tr text raw d Ha Hc Ht Hchat Hj Htr), Hg.
  split.
  - intros e He. rewrite He. reflexivity.
  - intros Hn. destruct (field d "datetime") as [| | | |s| |]; try reflexivity.
    destruct (Hn s eq_refl).
Qed.

(** X12. An answer of the extractor that decodes to anything but an
    object (a list, a string, a number, [null]) makes the request fail
    with [AttributeError] at the first [.get], before any token
    request; so does an answer without content, before anything is
    printed. *)
Theorem X12_non_object_answer (w : world) (rq : request) (tr : list event)
    (text : string) :
  authorization rq = AUTH_PASSWORD w ->
  py_in (content_type rq) ALLOWED_TYPES = true ->
  transcribe w rq = (tr, Ok (Ok text)) ->
  (forall raw v,
     chat_completion w (prompt_of w text) = Ok (Some raw) ->
     json_loads raw = Some v -> (forall d, v <> JObj d) ->
     process w rq = ((tr ++ said w text raw)%list, Raise AttributeError)) /\
  (chat_completion w (prompt_of w text) = Ok None ->
     process w rq = ((tr ++ [EvChatCompletion (prompt_of w text)])%list,
                     Raise AttributeError)).
Proof.
  intros Ha Hc Ht. rewrite (process_heard _ _ _ w rq tr text Ha Hc Ht).
  split.
  - intros raw v Hchat Hj Hv. unfold after_transcription.
    rewrite (call_gpt_answer _ w text raw Hchat), Hj, bind_ok.
    destruct v as [| | | | | |d]; try reflexivity.
    destruct (Hv d eq_refl).
  - intros Hchat. unfold after_transcription, call_gpt. rewrite Hchat. reflexivity.
Qed.

(** X13. A colour the resolver refuses is found out only inside
    [add_event], after the token request: a truthy colour string that
    does not parse raises [ValueError], a truthy colour that is not a
    string raises [AttributeError]; in both cases no event is posted. *)
Theorem X13_bad_colour_fails_after_token (w : world) (rq : request)
    (tr : list event) (text raw s : string) (d : list (string * json))
    (start : datetime) (tok : json) :
  authorization rq = AUTH_PASSWORD w ->
  py_in (content_type rq) ALLOWED_TYPES = true ->
  transcribe w rq = (tr, Ok (Ok text)) ->
  chat_completion w (prompt_of w text) = Ok (Some raw) ->
  json_loads raw = Some (JObj d) ->
  field d "datetime" = JStr s -> s <> EmptyString ->
  fromisoformat s = Ok start -> tzinfo start = None ->
  snd (get_access_token w) = Ok tok ->
  truthy (field d "color") = true ->
  (forall c, field d "color" = JStr c -> get_nearest_color_id c = None ->
     process w rq = ((tr ++ said w text raw ++ [EvTokenRequest])%list, Raise ValueError)) /\
  ((forall c, field d "color" <> JStr c) ->
     process w rq = ((tr ++ said w text raw ++ [EvTokenRequest])%list,
                     Raise AttributeError)).
Proof.
  intros Ha Hc Ht Hchat Hj Hs Hne Hfs Htz Hg Hcol.
  assert (Htr : truthy (field d "datetime") = true).
  { rewrite Hs. cbn. apply negb_true_iff, String.eqb_neq, Hne. }
  rewrite (process_scheduling w rq tr text raw d Ha Hc Ht Hchat Hj Htr).
  rewrite Hg, Hs. cbn [py_fromisoformat]. rewrite Hfs.
  rewrite add_event_cases, Htz. rewrite py_or_default_twice by reflexivity.
  unfold py_or. rewrite Hcol. split.
  - intros c Hc' Hn. rewrite Hc'. cbn [py_get_nearest_color_id]. rewrite Hn. reflexivity.
  - intros Hn. destruct (field d "color") as [| | | |c| |]; try reflexivity.
    destruct (Hn c eq_refl).
Qed.

(** X14. When the calendar answers the event creation with a status
    from 400 to 599, the request fails with [HTTPError]; the event was
    posted once, and it is not posted again. *)
Theorem X14_calendar_error_status (w : world) (rq : request) (tr : list event)
    (text raw s : string) (d : list (string * json)) (start : datetime)
    (tok : json) (cid : string) (r : http_response) :
  authorization rq = AUTH_PASSWORD w ->
  py_in (content_type rq) ALLOWED_TYPES = true ->
  transcribe w rq = (tr, Ok (Ok text)) ->
  chat_completion w (prompt_of w text) = Ok (Some raw) ->
  json_loads raw = Some (JObj d) ->
  field d "datetime" = JStr s -> s <> EmptyString ->
  fromisoformat s = Ok start -> tzinfo start = None ->
  snd (get_access_token w) = Ok tok ->
  py_get_nearest_color_id (py_or (field d "color") (JStr "#008080")) = Ok cid ->
  events_endpoint w tok
    (payload_of ny_utcoffset (py_or (field d "title") (JStr "No Title")) cid start)
    = Ok r ->
  is_error_status (status_code r) = true ->
  process w rq =
    ((tr ++ said w text raw
         ++ [EvTokenRequest;
             EvCreateEvent tok
               (payload_of ny_utcoffset (py_or (field d "title") (JStr "No Title"))
                  cid start)])%list,
     Raise (HTTPError (status_code r))) /\
  http_status (snd (process w rq)) = 500.
Proof.
  intros Ha Hc Ht Hchat Hj Hs Hne Hfs Htz Hg Hcol He Hst.
  assert (Htr : truthy (field d "datetime") = true).
  { rewrite Hs. cbn. apply negb_true_iff, String.eqb_neq, Hne. }
  rewrite (process_scheduling w rq tr text raw d Ha Hc Ht Hchat Hj Htr).
  rewrite Hg, Hs. cbn [py_fromisoformat]. rewrite Hfs.
  rewrite add_event_cases, Htz. rewrite py_or_default_twice by reflexivity.
  rewrite Hcol. cbv zeta. cbn [fst snd]. rewrite He.
  unfold is_error_status in Hst. rewrite Hst. split; reflexivity.
Qed.

End HandlerEdges.

Section HandlerOutcomes.

Variable json_loads : string -> option json.
Variable fromisoformat : string -> outcome datetime.
Variable ny_utcoffset : datetime -> Z.

Local Abbreviation process := (process_audio json_loads fromisoformat ny_utcoffset).
Local Abbreviation prompt_of w text := (prompt_for (Fmt.strftime_Ymd (now w)) text).

(** X15. A success body is returned only when the event was posted
    and the calendar answered with a non-error status and a JSON body:
    the [calendar_event] field is that body, the [parsed] field is the
    extractor's answer as decoded, without the defaults applied, and
    the [text] field is the transcript the extractor was asked about. *)
Theorem X15_success_means_event_accepted (w : world) (rq : request)
    (text : string) (parsed created : json) :
  snd (process w rq) = Ok (RespEvent text parsed created) ->
  exists (tok : json) (p : calendar_event) (r : http_response) (raw : string),
    In (EvCreateEvent tok p) (fst (process w rq)) /\
    events_endpoint w tok p = Ok r /\
    is_error_status (status_code r) = false /\
    json_body r = Ok created /\
    chat_completion w (prompt_of w text) = Ok (Some raw) /\
    json_loads raw = Some parsed.
Proof.
  unfold is_error_status. run_handler; intros H; try discriminate H;
    injection H as <- <- <-;
    do 4 eexists;
    (split; [cbn; repeat first [left; reflexivity | right]|]);
    repeat split; eassumption.
Qed.

(** X16. A normal return with an error field is one of three: an empty
    transcript with one of the two recogniser messages, or the
    datetime message; in each case neither a token was requested nor
    an event created. *)
Theorem X16_soft_outcomes_touch_no_calendar (w : world) (rq : request)
    (text err : string) :
  snd (process w rq) = Ok (RespError text err) ->
  existsb calendar_call (fst (process w rq)) = false /\
  ((text = EmptyString /\ err = "Could not understand audio") \/
   (text = EmptyString /\ err = "Speech Recognition service error") \/
   err = "Invalid or past datetime in input").
Proof.
  run_handler; intros H; try discriminate H;
    injection H as <- <-; (split; [reflexivity|tauto]).
Qed.

(** X17. Only the recogniser call is guarded, for every accepted
    content type. An exception raised while the audio (the upload for
    the wav types, the transcoded audio otherwise) is recorded
    propagates whatever its class, also when it is [UnknownValueError]
    or [RequestError]; and an exception of another class raised by the
    recogniser propagates too. *)
Theorem X17_only_recognition_is_guarded (w : world) (rq : request) (wav : string) :
  authorization rq = AUTH_PASSWORD w ->
  py_in (content_type rq) ALLOWED_TYPES = true ->
  (if py_in (content_type rq) WAV_TYPES then Ok (upload rq)
   else transcode_to_wav w (upload rq)) = Ok wav ->
  (forall e, record_audio w wav = Raise e ->
     process w rq =
       ((EvReadUpload
         :: (if py_in (content_type rq) WAV_TYPES then [] else [EvTranscode])
         ++ [EvRecord])%list, Raise e)) /\
  (forall audio e,
     record_audio w wav = Ok audio ->
     recognize_google w audio = Raise e ->
     e <> UnknownValueError -> e <> RequestError ->
     process w rq =
       ((EvReadUpload
         :: (if py_in (content_type rq) WAV_TYPES then [] else [EvTranscode])
         ++ [EvRecord; EvRecognize])%list, Raise e)).
Proof.
  intros Ha Hc Hw. split.
  - intros e He. unfold process_audio, transcribe.
    rewrite Ha, String.eqb_refl, Hc.
    destruct (py_in (content_type rq) WAV_TYPES);
      cbn [negb bind emit lift ret raise fst snd List.app].
    + injection Hw as <-. rewrite He. reflexivity.
    + rewrite Hw. cbn [negb bind emit lift ret raise fst snd List.app].
      rewrite He. reflexivity.
  - intros audio e Hr Hg N1 N2. unfold process_audio, transcribe.
    rewrite Ha, String.eqb_refl, Hc.
    destruct (py_in (content_type rq) WAV_TYPES);
      cbn [negb bind emit lift ret raise fst snd List.app].
    + injection Hw as <-. rewrite Hr.
      cbn [negb bind emit lift ret raise fst snd List.app]. rewrite Hg.
      destruct e; try reflexivity; contradiction.
    + rewrite Hw. cbn [negb bind emit lift ret raise fst snd List.app].
      rewrite Hr. cbn [negb bind emit lift ret raise fst snd List.app]. rewrite Hg.
      destruct e; try reflexivity; contradiction.
Qed.

(** X18. Transcoding is attempted exactly for the accepted types other
    than the two wav types; when it fails, the exception propagates
    and neither recording nor recognition takes place. *)
Theorem X18_transcoding_only_for_non_wav (w : world) (rq : request) :
  authorization rq = AUTH_PASSWORD w ->
  py_in (content_type rq) ALLOWED_TYPES = true ->
  (py_in (content_type rq) WAV_TYPES = true ->
     existsb (fun e => Nat.eqb (stage e) 1) (fst (process w rq)) = false) /\
  (py_in (content_type rq) WAV_TYPES = false ->
     (exists rest, fst (process w rq) = EvReadUpload :: EvTranscode :: rest) /\
     (forall e, transcode_to_wav w (upload rq) = Raise e ->
        process w rq = ([EvReadUpload; EvTranscode], Raise e))).
Proof.
  intros Ha Hc. split; intros Hw.
  - unfold process_audio, transcribe. rewrite Ha, String.eqb_refl, Hc, Hw.
    run_handler; reflexivity.
  - split.
    + unfold process_audio, transcribe. rewrite Ha, String.eqb_refl, Hc, Hw.
      run_handler; eexists; reflexivity.
    + intros e He. unfold process_audio, transcribe.
      rewrite Ha, String.eqb_refl, Hc, Hw.
      cbn [negb bind emit lift ret raise fst snd List.app]. rewrite He. reflexivity.
Qed.

(** X19. The clock enters the handler only through the date written
    in the prompt: with the same collaborators, two moments of the same
    day give the same calls and the same answer. *)
Theorem X19_only_the_date_of_now_matters (w : world) (rq : request)
    (clock : datetime) :
  year clock = year (now w) -> month clock = month (now w) ->
  day clock = day (now w) ->
  process (set_now w clock) rq = process w rq.
Proof.
  intros Hy Hm Hd.
  assert (E : Fmt.strftime_Ymd clock = Fmt.strftime_Ymd (now w)).
  { unfold Fmt.strftime_Ymd, Fmt.date_part. rewrite Hy, Hm, Hd. reflexivity. }
  unfold process_audio, after_transcription, call_gpt.
  change (now (set_now w clock)) with clock. rewrite E. reflexivity.
Qed.

(** X20. The defaults apply to every falsy value, not only to null and
    the empty string: in every event sent, the summary is the
    extracted title when it is truthy, of whatever JSON type, and
    ["No Title"] otherwise ([0], [false], an empty list); the colour
    slot is the resolver's answer on the extracted colour when it is
    truthy and on ["#008080"] otherwise. *)
Theorem X20_defaults_on_falsy_values (w : world) (rq : request) (tok : json)
    (p : calendar_event) :
  In (EvCreateEvent tok p) (fst (process w rq)) ->
  exists (text raw : string) (d : list (string * json)),
    chat_completion w (prompt_of w text) = Ok (Some raw) /\
    json_loads raw = Some (JObj d) /\
    ev_summary p = (if truthy (field d "title") then field d "title"
                    else JStr "No Title") /\
    py_get_nearest_color_id
      (if truthy (field d "color") then field d "color" else JStr "#008080")
    = Ok (ev_colorId p).
Proof.
  intros H.
  destruct (process_create_inv _ _ _ _ _ _ _ H)
    as (tr & text & raw & d & s & start & cid & _ & _ & _ & Hchat & Hj & _ & _ & _ & _
        & _ & Hcol & ->).
  exists text, raw, d. repeat split; try assumption.
Qed.

End HandlerOutcomes.

(* ================================================================= *)
(** ** The further properties at concrete requests *)

Lemma X9_token_error_status_witness :
  snd (Edge.run (Edge.world_with (Some Edge.future_answer) (Ok Edge.unauthorized)
                   (Ok Scenario.created)) Scenario.wav_request)
    = Raise (HTTPError 401) /\
  existsb creates_event
    (fst (Edge.run (Edge.world_with (Some Edge.future_answer) (Ok Edge.unauthorized)
                      (Ok Scenario.created)) Scenario.wav_request)) = false.
Proof.
  destruct (X9_token_error_status Ref.json_loads Ref.fromisoformat Ref.ny_utcoffset
              (Edge.world_with (Some Edge.future_answer) (Ok Edge.unauthorized)
                 (Ok Scenario.created))
              Scenario.wav_request [EvReadUpload; EvRecord; EvRecognize]
              Scenario.transcript Edge.future_answer Edge.future_fields
              Edge.unauthorized) as [E _].
  - reflexivity.
  - reflexivity.
  - reflexivity.
  - reflexivity.
  - vm_compute. reflexivity.
  - reflexivity.
  - reflexivity.
  - reflexivity.
  - unfold Edge.run. rewrite E. split; reflexivity.
Defined.

Lemma X10_missing_token_is_not_checked_witness :
  In (EvCreateEvent JNull Edge.future_payload)
     (fst (Edge.run (Edge.world_with (Some Edge.future_answer)
                       (Ok Edge.token_without_key) (Ok Scenario.created))
             Scenario.wav_request)).
Proof.
  destruct (X10_missing_token_is_not_checked Ref.json_loads Ref.fromisoformat
              Ref.ny_utcoffset
              (Edge.world_with (Some Edge.future_answer) (Ok Edge.token_without_key)
                 (Ok Scenario.created))
              Scenario.wav_request [EvReadUpload; EvRecord; EvRecognize]
              Scenario.transcript Edge.future_answer "2024-01-02T09:00:00"
              Edge.future_fields [("expires_in", JInt 3599)]
              Edge.token_without_key Edge.future_start "9") as [_ E].
  - reflexivity.
  - reflexivity.
  - reflexivity.
  - reflexivity.
  - vm_compute. reflexivity.
  - reflexivity.
  - discriminate.
  - reflexivity.
  - reflexivity.
  - vm_compute. reflexivity.
  - reflexivity.
  - reflexivity.
  - reflexivity.
  - reflexivity.
  - unfold Edge.run. rewrite E. apply in_or_app. right. apply in_or_app. right.
    right. left. reflexivity.
Defined.

Lemma X11_datetime_parsed_after_token_witness :
  snd (Edge.run (Edge.world_with (Some Edge.worded_datetime_answer)
                   (Ok Scenario.token_ok) (Ok Scenario.created))
         Scenario.wav_request) = Raise ValueError /\
  snd (Edge.run (Edge.world_with (Some Edge.numeric_datetime_answer)
                   (Ok Scenario.token_ok) (Ok Scenario.created))
         Scenario.wav_request) = Raise TypeError.
Proof.
  split.
  - unfold Edge.run.
    rewrite (proj1 (X11_datetime_parsed_after_token Ref.json_loads Ref.fromisoformat
                      Ref.ny_utcoffset
                      (Edge.world_with (Some Edge.worded_datetime_answer)
                         (Ok Scenario.token_ok) (Ok Scenario.created))
                      Scenario.wav_request [EvReadUpload; EvRecord; EvRecognize]
                      Scenario.transcript Edge.worded_datetime_answer
                      [("title", JStr "lunch with sam"); ("color", JNull);
                       ("datetime", JStr "tomorrow")]
                      (JStr "ya29.a0")
                      eq_refl eq_refl eq_refl eq_refl eq_refl eq_refl eq_refl)
                   ValueError eq_refl).
    reflexivity.
  - unfold Edge.run.
    rewrite (proj2 (X11_datetime_parsed_after_token Ref.json_loads Ref.fromisoformat
                      Ref.ny_utcoffset
                      (Edge.world_with (Some Edge.numeric_datetime_answer)
                         (Ok Scenario.token_ok) (Ok Scenario.created))
                      Scenario.wav_request [EvReadUpload; EvRecord; EvRecognize]
                      Scenario.transcript Edge.numeric_datetime_answer
                      [("title", JStr "lunch with sam"); ("color", JNull);
                       ("datetime", JInt 5)]
                      (JStr "ya29.a0")
                      eq_refl eq_refl eq_refl eq_refl eq_refl eq_refl eq_refl)).
    + reflexivity.
    + intros s. discriminate.
Defined.

Lemma X12_non_object_answer_witness :
  snd (Edge.run (Edge.world_with (Some "[1, 2]") (Ok Scenario.token_ok)
                   (Ok Scenario.created)) Scenario.wav_request)
    = Raise AttributeError /\
  snd (Edge.run (Edge.world_with None (Ok Scenario.token_ok) (Ok Scenario.created))
         Scenario.wav_request)
    = Raise AttributeError.
Proof.
  split.
  - unfold Edge.run.
    rewrite (proj1 (X12_non_object_answer Ref.json_loads Ref.fromisoformat
                      Ref.ny_utcoffset
                      (Edge.world_with (Some "[1, 2]") (Ok Scenario.token_ok)
                         (Ok Scenario.created))
                      Scenario.wav_request [EvReadUpload; EvRecord; EvRecognize]
                      Scenario.transcript eq_refl eq_refl eq_refl)
                   "[1, 2]" (JArr [JInt 1; JInt 2]) eq_refl eq_refl
                   ltac:(intros d; discriminate)).
    reflexivity.
  - unfold Edge.run.
    rewrite (proj2 (X12_non_object_answer Ref.json_loads Ref.fromisoformat
                      Ref.ny_utcoffset
                      (Edge.world_with None (Ok Scenario.token_ok)
                         (Ok Scenario.created))
                      Scenario.wav_request [EvReadUpload; EvRecord; EvRecognize]
                      Scenario.transcript eq_refl eq_refl eq_refl) eq_refl).
    reflexivity.
Defined.

Lemma X13_bad_colour_fails_after_token_witness :
  Edge.run (Edge.world_with (Some Edge.short_colour_answer) (Ok Scenario.token_ok)
              (Ok Scenario.created)) Scenario.wav_request
    = ([EvReadUpload; EvRecord; EvRecognize;
        EvChatCompletion
          (prompt_for (Fmt.strftime_Ymd Scenario.reference_now) Scenario.transcript);
        EvPrint ("GPT response: " ++ Edge.short_colour_answer);
        EvTokenRequest], Raise ValueError) /\
  snd (Edge.run (Edge.world_with (Some Edge.numeric_colour_answer)
                   (Ok Scenario.token_ok) (Ok Scenario.created))
         Scenario.wav_request) = Raise AttributeError.
Proof.
  split.
  - unfold Edge.run.
    rewrite (proj1 (X13_bad_colour_fails_after_token Ref.json_loads Ref.fromisoformat
                      Ref.ny_utcoffset
                      (Edge.world_with (Some Edge.short_colour_answer)
                         (Ok Scenario.token_ok) (Ok Scenario.created))
                      Scenario.wav_request [EvReadUpload; EvRecord; EvRecognize]
                      Scenario.transcript Edge.short_colour_answer
                      "2024-01-02T09:00:00"
                      [("title", JStr "lunch with sam"); ("color", JStr "#fff");
                       ("datetime", JStr "2024-01-02T09:00:00")]
                      Edge.future_start (JStr "ya29.a0")
                      eq_refl eq_refl eq_refl eq_refl eq_refl eq_refl
                      ltac:(discriminate) eq_refl eq_refl eq_refl eq_refl)
                   "#fff" eq_refl eq_refl).
    reflexivity.
  - unfold Edge.run.
    rewrite (proj2 (X13_bad_colour_fails_after_token Ref.json_loads Ref.fromisoformat
                      Ref.ny_utcoffset
                      (Edge.world_with (Some Edge.numeric_colour_answer)
                         (Ok Scenario.token_ok) (Ok Scenario.created))
                      Scenario.wav_request [EvReadUpload; EvRecord; EvRecognize]
                      Scenario.transcript Edge.numeric_colour_answer
                      "2024-01-02T09:00:00"
                      [("title", JStr "lunch with sam"); ("color", JInt 7);
                       ("datetime", JStr "2024-01-02T09:00:00")]
                      Edge.future_start (JStr "ya29.a0")
                      eq_refl eq_refl eq_refl eq_refl eq_refl eq_refl
                      ltac:(discriminate) eq_refl eq_refl eq_refl eq_refl)).
    + reflexivity.
    + intros c. discriminate.
Defined.

Lemma X14_calendar_error_status_witness :
  snd (Edge.run (Edge.world_with (Some Edge.future_answer) (Ok Scenario.token_ok)
                   (Ok Edge.forbidden)) Scenario.wav_request)
    = Raise (HTTPError 403) /\
  In (EvCreateEvent (JStr "ya29.a0") Edge.future_payload)
     (fst (Edge.run (Edge.world_with (Some Edge.future_answer) (Ok Scenario.token_ok)
                       (Ok Edge.forbidden)) Scenario.wav_request)).
Proof.
  destruct (X14_calendar_error_status Ref.json_loads Ref.fromisoformat Ref.ny_utcoffset
              (Edge.world_with (Some Edge.future_answer) (Ok Scenario.token_ok)
                 (Ok Edge.forbidden))
              Scenario.wav_request [EvReadUpload; EvRecord; EvRecognize]
              Scenario.transcript Edge.future_answer "2024-01-02T09:00:00"
              Edge.future_fields Edge.future_start (JStr "ya29.a0") "9"
              Edge.forbidden) as [E _].
  - reflexivity.
  - reflexivity.
  - reflexivity.
  - reflexivity.
  - vm_compute. reflexivity.
  - reflexivity.
  - discriminate.
  - reflexivity.
  - reflexivity.
  - reflexivity.
  - vm_compute. reflexivity.
  - reflexivity.
  - reflexivity.
  - unfold Edge.run. rewrite E. split; [reflexivity|].
    cbn [fst]. apply in_or_app. right. apply in_or_app. right.
    right. left. reflexivity.
Defined.

Lemma X15_success_means_event_accepted_witness :
  exists (tok : json) (p : calendar_event) (r : http_response) (raw : string),
    In (EvCreateEvent tok p)
       (fst (Scenario.run Scenario.past_world Scenario.wav_request)) /\
    events_endpoint Scenario.past_world tok p = Ok r /\
    is_error_status (status_code r) = false /\
    json_body r = Ok (JObj [("id", JStr "evt1"); ("status", JStr "confirmed")]) /\
    chat_completion Scenario.past_world
      (prompt_for (Fmt.strftime_Ymd (now Scenario.past_world)) Scenario.transcript)
      = Ok (Some raw) /\
    Ref.json_loads raw
      = Some (JObj [("title", JStr "lunch with sam"); ("color", JStr "#0000ff");
                    ("datetime", JStr "2024-01-01T14:59:59")]).
Proof.
  apply (X15_success_means_event_accepted Ref.json_loads Ref.fromisoformat
           Ref.ny_utcoffset Scenario.past_world Scenario.wav_request).
  vm_compute. reflexivity.
Defined.

Lemma X16_soft_outcomes_touch_no_calendar_witness :
  existsb calendar_call
    (fst (Scenario.run Scenario.null_world Scenario.wav_request)) = false /\
  existsb calendar_call
    (fst (Scenario.run Scenario.inaudible_world Scenario.mp3_request)) = false.
Proof.
  split.
  - apply (X16_soft_outcomes_touch_no_calendar Ref.json_loads Ref.fromisoformat
             Ref.ny_utcoffset Scenario.null_world Scenario.wav_request
             Scenario.transcript "Invalid or past datetime in input").
    vm_compute. reflexivity.
  - apply (X16_soft_outcomes_touch_no_calendar Ref.json_loads Ref.fromisoformat
             Ref.ny_utcoffset Scenario.inaudible_world Scenario.mp3_request
             EmptyString "Could not understand audio").
    vm_compute. reflexivity.
Defined.

Lemma X17_only_recognition_is_guarded_witness :
  Edge.run (Edge.world_audio (Ok "RIFF") (Raise UnknownValueError) (Ok "hello"))
    Scenario.wav_request
    = ([EvReadUpload; EvRecord], Raise UnknownValueError) /\
  Edge.run (Edge.world_audio (Ok "RIFF") (Raise RequestError) (Ok "hello"))
    Scenario.mp3_request
    = ([EvReadUpload; EvTranscode; EvRecord], Raise RequestError) /\
  Edge.run (Edge.world_audio (Ok "RIFF") (Ok "pcm") (Raise (CollaboratorError "recognizer")))
    Scenario.mp3_request
    = ([EvReadUpload; EvTranscode; EvRecord; EvRecognize],
       Raise (CollaboratorError "recognizer")).
Proof.
  split; [|split].
  - apply (proj1 (X17_only_recognition_is_guarded Ref.json_loads Ref.fromisoformat
                    Ref.ny_utcoffset
                    (Edge.world_audio (Ok "RIFF") (Raise UnknownValueError) (Ok "hello"))
                    Scenario.wav_request "RIFF" eq_refl eq_refl eq_refl)).
    reflexivity.
  - apply (proj1 (X17_only_recognition_is_guarded Ref.json_loads Ref.fromisoformat
                    Ref.ny_utcoffset
                    (Edge.world_audio (Ok "RIFF") (Raise RequestError) (Ok "hello"))
                    Scenario.mp3_request "RIFF" eq_refl eq_refl eq_refl)).
    reflexivity.
  - apply (proj2 (X17_only_recognition_is_guarded Ref.json_loads Ref.fromisoformat
                    Ref.ny_utcoffset
                    (Edge.world_audio (Ok "RIFF") (Ok "pcm")
                       (Raise (CollaboratorError "recognizer")))
                    Scenario.mp3_request "RIFF" eq_refl eq_refl eq_refl) "pcm").
    + reflexivity.
    + reflexivity.
    + discriminate.
    + discriminate.
Defined.

Lemma X18_transcoding_only_for_non_wav_witness :
  existsb (fun e => Nat.eqb (stage e) 1)
    (fst (Scenario.run Scenario.past_world Scenario.wav_request)) = false /\
  Edge.run (Edge.world_audio (Raise (CollaboratorError "ffmpeg")) (Ok "pcm") (Ok "hello"))
    Scenario.mp3_request
    = ([EvReadUpload; EvTranscode], Raise (CollaboratorError "ffmpeg")).
Proof.
  split.
  - apply (proj1 (X18_transcoding_only_for_non_wav Ref.json_loads Ref.fromisoformat
                    Ref.ny_utcoffset Scenario.past_world Scenario.wav_request
                    eq_refl eq_refl)).
    reflexivity.
  - apply (proj2 (proj2 (X18_transcoding_only_for_non_wav Ref.json_loads
                           Ref.fromisoformat Ref.ny_utcoffset
                           (Edge.world_audio (Raise (CollaboratorError "ffmpeg"))
                              (Ok "pcm") (Ok "hello"))
                           Scenario.mp3_request eq_refl eq_refl) eq_refl)).
    reflexivity.
Defined.

Lemma X19_only_the_date_of_now_matters_witness :
  Scenario.run (set_now Scenario.past_world (mk_datetime 2024 1 1 23 59 59 0 None))
    Scenario.wav_request
  = Scenario.run Scenario.past_world Scenario.wav_request.
Proof.
  apply (X19_only_the_date_of_now_matters Ref.json_loads Ref.fromisoformat
           Ref.ny_utcoffset Scenario.past_world Scenario.wav_request
           (mk_datetime 2024 1 1 23 59 59 0 None)); reflexivity.
Defined.

Lemma X20_defaults_on_falsy_values_witness :
  exists (text raw : string) (d : list (string * json)),
    chat_completion
      (Edge.world_with (Some Edge.falsy_answer) (Ok Scenario.token_ok)
         (Ok Scenario.created))
      (prompt_for (Fmt.strftime_Ymd Scenario.reference_now) text) = Ok (Some raw) /\
    Ref.json_loads raw = Some (JObj d) /\
    JStr "No Title"
      = (if truthy (field d "title") then field d "title" else JStr "No Title") /\
    py_get_nearest_color_id
      (if truthy (field d "color") then field d "color" else JStr "#008080")
    = Ok "10".
Proof.
  apply (X20_defaults_on_falsy_values Ref.json_loads Ref.fromisoformat Ref.ny_utcoffset
           (Edge.world_with (Some Edge.falsy_answer) (Ok Scenario.token_ok)
              (Ok Scenario.created))
           Scenario.wav_request (JStr "ya29.a0")
           (payload_of Ref.ny_utcoffset (JStr "No Title") "10" Edge.future_start)).
  vm_compute. tauto.
Defined.
